(** * nail-parquet fixture generators: a shallow embedding

    The repository holds two scripts.  [create_test_samples.py] builds a
    small table from a prefix and a row count and writes it in four formats;
    [create_test_data.py] builds a seeded random table of 1000 rows and
    writes it as Parquet.  Both are embedded below: Python values, the part
    of pandas, pathlib and numpy the scripts call, then the two scripts, then
    the properties of the specification. *)

From Stdlib Require Import ZArith List String Ascii Bool Lia DecimalString SpecFloat.
Import ListNotations.
Local Open Scope string_scope.
Local Open Scope Z_scope.

(* ===================================================================== *)
(** * Python values, exceptions and results *)
(* ===================================================================== *)

Module Py.

(** An exception object: its class and the text [str(e)] gives.  Only
    instances of [Exception] are raised by the calls modelled here;
    [KeyboardInterrupt] and [SystemExit], which [except Exception] lets
    through, come from signals and from [sys.exit], and the scripts use
    neither. *)
Record exn := mk_exn { exn_class : string; exn_msg : string }.

Inductive result (A : Type) : Type :=
| Ok (a : A)
| Raise (e : exn).
Arguments Ok {A} a.
Arguments Raise {A} e.

Definition bind {A B} (r : result A) (k : A -> result B) : result B :=
  match r with
  | Ok a => k a
  | Raise e => Raise e
  end.

Definition OverflowError (msg : string) : exn := mk_exn "OverflowError" msg.
Definition ValueError (msg : string) : exn := mk_exn "ValueError" msg.
Definition IndexError (msg : string) : exn := mk_exn "IndexError" msg.

(** [str(i)] for an [int]. *)
Definition str_int (i : Z) : string := NilZero.string_of_int (Z.to_int i).

(** [range(start, stop)]. *)
Definition range (start stop : Z) : list Z :=
  map (fun k => start + Z.of_nat k) (seq 0 (Z.to_nat (stop - start))).

(** [xs[i]] for an index that is not negative. *)
Definition list_getitem {A} (xs : list A) (i : Z) : result A :=
  match nth_error xs (Z.to_nat i) with
  | Some x => Ok x
  | None => Raise (IndexError "list index out of range")
  end.

(** A [for] loop whose body may raise: the first exception ends the loop. *)
Fixpoint for_each {A S} (body : S -> A -> result S) (xs : list A) (s : S)
  : result S :=
  match xs with
  | [] => Ok s
  | x :: xs' =>
      match body s x with
      | Ok s' => for_each body xs' s'
      | Raise e => Raise e
      end
  end.

(** ** Floats: IEEE 754 binary64, round to nearest even *)

Definition float := spec_float.
Definition prec : Z := 53.
Definition emax : Z := 1024.

(** The double nearest to an integer, ties to even. *)
Definition nearest_double (i : Z) : float := binary_normalize prec emax i 0 false.

(** [float(i)]: the nearest double, unless it would be 2^1024 or more. *)
Definition float_of_int (i : Z) : result float :=
  if Z.abs i <? 2 ^ 1024 - 2 ^ 970 then Ok (nearest_double i)
  else Raise (OverflowError "int too large to convert to float").

(** The double a decimal literal [num/den] denotes, e.g. [1.1] is
    [float_lit 11 10]. *)
Definition float_lit (num den : positive) : float :=
  SFdiv prec emax (S754_finite false num 0) (S754_finite false den 0).

(** [x * y] for two floats. *)
Definition float_mul (x y : float) : float := SFmul prec emax x y.

(** [i * y] for an [int] [i] and a [float] [y]: [i] is converted first. *)
Definition int_mul_float (i : Z) (y : float) : result float :=
  bind (float_of_int i) (fun x => Ok (float_mul x y)).

(** The integer nearest to [a / b], ties to the even one ([0 <= a], [0 < b]). *)
Definition div_half_even (a b : Z) : Z :=
  let q := a / b in
  match 2 * (a mod b) ?= b with
  | Lt => q
  | Gt => q + 1
  | Eq => if Z.even q then q else q + 1
  end.

Definition NDIGITS_MAX : N := 323.

(** [round(x, ndigits)] for [ndigits >= 0] (CPython's [double_round]): the
    exact value of [x] is rounded to [ndigits] decimals, ties to even, and
    the decimal obtained is read back as the nearest double.  Infinities,
    NaN and zeros round to themselves. *)
Definition round (x : float) (ndigits : N) : float :=
  match x with
  | S754_finite s m e =>
      if (NDIGITS_MAX <? ndigits)%N then x
      else
        let scale := 10 ^ Z.of_N ndigits in
        let q := if 0 <=? e then Z.pos m * scale * 2 ^ e
                 else div_half_even (Z.pos m * scale) (2 ^ (- e)) in
        match q, scale with
        | Z.pos qp, Z.pos sp =>
            SFdiv prec emax (S754_finite s qp 0) (S754_finite false sp 0)
        | _, _ => S754_zero s
        end
  | _ => x
  end.

(** ** Calendar dates

    A [datetime.date] is kept as its proleptic Gregorian ordinal
    ([date.toordinal()]: 0001-01-01 is day 1, 9999-12-31 is day 3652059),
    which is what CPython's date arithmetic works on. *)
Record date := mk_date { toordinal : Z }.

Definition MAXORDINAL : Z := 3652059.

Definition date_valid (d : date) : Prop := 1 <= toordinal d <= MAXORDINAL.

(** [timedelta(days=n)]: the number of days it holds. *)
Definition timedelta (days : Z) : result Z :=
  if Z.abs days <=? 999999999 then Ok days
  else Raise (OverflowError
                ("days=" ++ str_int days ++ "; must have magnitude <= 999999999")).

(** [d - delta] for a [timedelta] of [days] days. *)
Definition date_sub (d : date) (days : Z) : result date :=
  let o := toordinal d - days in
  if (1 <=? o) && (o <=? MAXORDINAL) then Ok (mk_date o)
  else Raise (OverflowError "date value out of range").

(** ** Checking a property over a run of integers *)

(** Two doubles with the same sign, mantissa and exponent. *)
Definition same_float (x y : float) : bool :=
  match x, y with
  | S754_finite s m e, S754_finite s' m' e' =>
      (Bool.eqb s s' && Pos.eqb m m' && Z.eqb e e')%bool
  | _, _ => false
  end.

(** [P] holds of the [n] integers from [i] on. *)
Fixpoint all_from (P : Z -> bool) (n : nat) (i : Z) : bool :=
  match n with
  | O => true
  | S n' => (P i && all_from P n' (i + 1))%bool
  end.

End Py.

Notation "x <- r ;; k" := (Py.bind r (fun x => k))
  (at level 61, r at next level, right associativity).

(* ===================================================================== *)
(** * pandas: the table *)
(* ===================================================================== *)

Module Pandas.
Import Py.

Inductive value : Type :=
| VInt (z : Z)
| VFloat (x : float)
| VStr (s : string)
| VBool (b : bool)
| VDate (d : date)
| VNaN.

(** A Python [dict] with string keys, in insertion order. *)
Definition dict := list (string * value).

Fixpoint dict_get (k : string) (d : dict) : option value :=
  match d with
  | [] => None
  | (k', v) :: d' => if String.eqb k k' then Some v else dict_get k d'
  end.

(** A [DataFrame]: the length of its index and its columns in order, each a
    name and one cell per row. *)
Record DataFrame := mk_frame {
  nrows : nat;
  cols : list (string * list value)
}.

Definition columns (df : DataFrame) : list string := map fst (cols df).

Fixpoint column (name : string) (cs : list (string * list value))
  : option (list value) :=
  match cs with
  | [] => None
  | (k, vs) :: cs' => if String.eqb name k then Some vs else column name cs'
  end.

(** [df[name].iloc[i]] *)
Definition cell (df : DataFrame) (name : string) (i : nat) : option value :=
  match column name (cols df) with
  | Some vs => nth_error vs i
  | None => None
  end.

Definition add_key (ks : list string) (k : string) : list string :=
  if existsb (String.eqb k) ks then ks else (ks ++ [k])%list.

(** The keys of all records, each once, in order of first appearance. *)
Definition keys_union (data : list dict) : list string :=
  fold_left (fun ks d => fold_left add_key (map fst d) ks) data [].

Definition get_or_nan (k : string) (d : dict) : value :=
  match dict_get k d with Some v => v | None => VNaN end.

(** [pd.DataFrame(data)] for a list of records: one row per record, one
    column per key; a list without records gives a frame without columns. *)
Definition DataFrame_of_records (data : list dict) : DataFrame :=
  {| nrows := List.length data;
     cols := map (fun k => (k, map (get_or_nan k) data)) (keys_union data) |}.

Definition same_length (n : nat) (c : string * list value) : bool :=
  Nat.eqb (List.length (snd c)) n.

(** [pd.DataFrame(data)] for a dict of columns: the columns in the order of
    the dict; columns of different lengths are refused. *)
Definition DataFrame_of_columns (data : list (string * list value))
  : result DataFrame :=
  match data with
  | [] => Ok {| nrows := 0; cols := [] |}
  | (_, vs) :: _ =>
      if forallb (same_length (List.length vs)) data
      then Ok {| nrows := List.length vs; cols := data |}
      else Raise (ValueError "All arrays must be of the same length")
  end.

End Pandas.

(* ===================================================================== *)
(** * pathlib and the file system *)
(* ===================================================================== *)

Module Os.
Import Py.

(** The [OSError]s of the file system calls; [str(e)] names the path of the
    call. *)
Definition FileExistsError (path : string) : exn :=
  mk_exn "FileExistsError" ("[Errno 17] File exists: '" ++ path ++ "'").
Definition FileNotFoundError (path : string) : exn :=
  mk_exn "FileNotFoundError" ("[Errno 2] No such file or directory: '" ++ path ++ "'").
Definition NotADirectoryError (path : string) : exn :=
  mk_exn "NotADirectoryError" ("[Errno 20] Not a directory: '" ++ path ++ "'").
Definition IsADirectoryError (path : string) : exn :=
  mk_exn "IsADirectoryError" ("[Errno 21] Is a directory: '" ++ path ++ "'").

(** A [pathlib.Path] is kept as its [parts]: [Path('/a/b')] is
    [["/"; "a"; "b"]], [Path('a/b')] is [["a"; "b"]] and [Path('.')] is
    [[]]. *)
Definition Path := list string.

Definition is_anchor (p : Path) : bool :=
  match p with
  | [] => true
  | [root] => String.eqb root "/"
  | _ => false
  end.

(** [p.parent] *)
Definition parent (p : Path) : Path := if is_anchor p then p else removelast p.

(** [p.name] *)
Definition name (p : Path) : string := if is_anchor p then "" else last p "".

(** [p / child] for a child of one component. *)
Definition joinpath (p : Path) (child : string) : Path := (p ++ [child])%list.

(** [str(p)] *)
Definition path_str (p : Path) : string :=
  match p with
  | [] => "."
  | root :: rest =>
      if String.eqb root "/" then "/" ++ String.concat "/" rest
      else String.concat "/" p
  end.

(** [s.rfind('.')] *)
Fixpoint rfind_dot (s : string) : option nat :=
  match s with
  | EmptyString => None
  | String c s' =>
      match rfind_dot s' with
      | Some i => Some (S i)
      | None => if Ascii.eqb c "." then Some O else None
      end
  end.

(** The suffix of a file name: from its last dot on, unless that dot is its
    first or its last character. *)
Definition suffix (nm : string) : string :=
  match rfind_dot nm with
  | Some i =>
      if (Nat.ltb 0 i && Nat.ltb i (String.length nm - 1))%bool
      then substring i (String.length nm - i) nm
      else ""
  | None => ""
  end.

Definition stem (nm : string) : string :=
  substring 0 (String.length nm - String.length (suffix nm)) nm.

Definition valid_suffix (sfx : string) : bool :=
  match sfx with
  | EmptyString => true
  | String c rest => (Ascii.eqb c "." && negb (String.eqb rest ""))%bool
  end.

(** [p.with_suffix(sfx)] *)
Definition with_suffix (p : Path) (sfx : string) : result Path :=
  if String.eqb (name p) "" then
    Raise (ValueError ("PosixPath('" ++ path_str p ++ "') has an empty name"))
  else if negb (valid_suffix sfx) then
    Raise (ValueError ("Invalid suffix '" ++ sfx ++ "'"))
  else Ok (joinpath (parent p) (stem (name p) ++ sfx)).

(** ** The file tree

    A path is walked from the top of the tree, component by component.  The
    top is the name space paths are resolved in: the root directory is its
    entry [/] and the entries of the working directory sit beside it.  Names
    are plain entries: [..] and symbolic links are not interpreted. *)
#[warnings="-register-all"]
Inductive node : Type :=
| File (content : string)
| Dir (children : list (string * node)).

Definition entries := list (string * node).

Fixpoint assoc (k : string) (es : entries) : option node :=
  match es with
  | [] => None
  | (k', n) :: es' => if String.eqb k k' then Some n else assoc k es'
  end.

Fixpoint update (k : string) (n : node) (es : entries) : entries :=
  match es with
  | [] => [(k, n)]
  | (k', n') :: es' =>
      if String.eqb k k' then (k, n) :: es' else (k', n') :: update k n es'
  end.

Fixpoint lookup (es : entries) (p : Path) : option node :=
  match p with
  | [] => Some (Dir es)
  | c :: rest =>
      match assoc c es with
      | Some (Dir sub) => lookup sub rest
      | Some (File content) =>
          match rest with [] => Some (File content) | _ => None end
      | None => None
      end
  end.

Definition is_dir (es : entries) (p : Path) : bool :=
  match lookup es p with Some (Dir _) => true | _ => false end.

(** [p.mkdir(parents=..., exist_ok=...)]: a directory that exists is kept
    when [exist_ok]; a missing ancestor is created when [parents]; a regular
    file in the way is an error in every case.  [whole] is the path of the
    call, for the message of the error. *)
Fixpoint mkdir_in (whole : string) (parents exist_ok : bool) (es : entries)
  (p : Path) : result entries :=
  match p with
  | [] => if exist_ok then Ok es else Raise (FileExistsError whole)
  | c :: rest =>
      match assoc c es with
      | Some (File _) =>
          match rest with
          | [] => Raise (FileExistsError whole)
          | _ => Raise (NotADirectoryError whole)
          end
      | Some (Dir sub) =>
          sub' <- mkdir_in whole parents exist_ok sub rest ;;
          Ok (update c (Dir sub') es)
      | None =>
          match rest with
          | [] => Ok (update c (Dir []) es)
          | _ =>
              if parents then
                sub' <- mkdir_in whole parents exist_ok [] rest ;;
                Ok (update c (Dir sub') es)
              else Raise (FileNotFoundError whole)
          end
      end
  end.

Definition mkdir (parents exist_ok : bool) (es : entries) (p : Path)
  : result entries :=
  mkdir_in (path_str p) parents exist_ok es p.

(** [open(p, 'w')], write, close: the directory of [p] has to exist and [p]
    must not be a directory; a file that exists is overwritten. *)
Fixpoint write_file_in (whole : string) (es : entries) (p : Path)
  (content : string) : result entries :=
  match p with
  | [] => Raise (IsADirectoryError whole)
  | c :: rest =>
      match rest with
      | [] =>
          match assoc c es with
          | Some (Dir _) => Raise (IsADirectoryError whole)
          | _ => Ok (update c (File content) es)
          end
      | _ =>
          match assoc c es with
          | Some (Dir sub) =>
              sub' <- write_file_in whole sub rest content ;;
              Ok (update c (Dir sub') es)
          | Some (File _) => Raise (NotADirectoryError whole)
          | None => Raise (FileNotFoundError whole)
          end
      end
  end.

Definition write_file (es : entries) (p : Path) (content : string)
  : result entries :=
  write_file_in (path_str p) es p content.

(** No component of [p] is a regular file: [p] exists as a directory or can
    be created. *)
Fixpoint creatable (es : entries) (p : Path) : bool :=
  match p with
  | [] => true
  | c :: rest =>
      match assoc c es with
      | Some (File _) => false
      | Some (Dir sub) => creatable sub rest
      | None => true
      end
  end.

(** ** The footprint of a change *)

(** The directories on the way to [d], from the top to [d] itself. *)
Fixpoint ancestors (d : Path) : list Path :=
  [] :: match d with
        | [] => []
        | c :: rest => map (cons c) (ancestors rest)
        end.

(** The footprint of a change of the tree from [es] to [es']: outside
    [touched] the regular files are the same, with the same contents; every
    directory is still one; and a directory that is new is one of [made]. *)
Definition keeps (touched made : list Path) (es es' : entries) : Prop :=
  (forall q content, ~ In q touched ->
     (lookup es q = Some (File content) <-> lookup es' q = Some (File content)))
  /\ (forall q, is_dir es q = true -> is_dir es' q = true)
  /\ (forall q, is_dir es' q = true -> is_dir es q = true \/ In q made).

End Os.

(* ===================================================================== *)
(** * The world a script runs in *)
(* ===================================================================== *)

Module IO.
Import Py Pandas Os.

Inductive format := CSV | JSON | Parquet | Excel.

(** What a run does, in the order it does it. *)
Inductive event : Type :=
| Mkdir (p : Path)
| Export (f : format) (p : Path) (df : DataFrame)
| Stdout (line : string)
| Stderr (line : string).

(** The process state: [globals] is what the script reads from its
    environment (the calendar day for one script, numpy's global generator
    for the other), [files] the file tree, [trace] the events so far. *)
Record world (G : Type) := mk_world {
  globals : G;
  files : entries;
  trace : list event
}.
Arguments mk_world {G}.
Arguments globals {G}.
Arguments files {G}.
Arguments trace {G}.

(** A statement: it ends normally or raises, and leaves a world either way. *)
Definition M (G A : Type) : Type := world G -> result A * world G.

Section Monad.
Context {G : Type}.

Definition ret {A} (a : A) : M G A := fun w => (Ok a, w).

Definition raise {A} (e : exn) : M G A := fun w => (Raise e, w).

Definition bindM {A B} (m : M G A) (k : A -> M G B) : M G B :=
  fun w =>
    match m w with
    | (Ok a, w') => k a w'
    | (Raise e, w') => (Raise e, w')
    end.

Definition lift {A} (r : result A) : M G A := fun w => (r, w).

(** [try: body / except Exception as e: handler e] *)
Definition try_except {A} (body : M G A) (handler : exn -> M G A) : M G A :=
  fun w =>
    match body w with
    | (Ok a, w') => (Ok a, w')
    | (Raise e, w') => handler e w'
    end.

Definition log (ev : event) (w : world G) : world G :=
  mk_world (globals w) (files w) (trace w ++ [ev]).

Definition set_files (es : entries) (w : world G) : world G :=
  mk_world (globals w) es (trace w).

Definition set_globals (g : G) (w : world G) : world G :=
  mk_world g (files w) (trace w).

Definition get_globals : M G G := fun w => (Ok (globals w), w).

(** [print(line)] and [print(line, file=sys.stderr)] *)
Definition print (line : string) : M G unit := fun w => (Ok tt, log (Stdout line) w).
Definition print_err (line : string) : M G unit := fun w => (Ok tt, log (Stderr line) w).

(** [p.mkdir(parents=..., exist_ok=...)] *)
Definition Path_mkdir (parents exist_ok : bool) (p : Path) : M G unit :=
  fun w =>
    let w1 := log (Mkdir p) w in
    match mkdir parents exist_ok (files w1) p with
    | Ok es => (Ok tt, set_files es w1)
    | Raise e => (Raise e, w1)
    end.

(** A [for] loop over statements. *)
Fixpoint for_eachM {A} (xs : list A) (body : A -> M G unit) : M G unit :=
  match xs with
  | [] => ret tt
  | x :: xs' => bindM (body x) (fun _ => for_eachM xs' body)
  end.

(** A statement whose changes of the tree stay within a footprint. *)
Definition frames (T D : list Path) {A} (m : M G A) : Prop :=
  forall w, keeps T D (files w) (files (snd (m w))).

(** A statement that leaves the tree and the trace as they are. *)
Definition quiet {A} (m : M G A) : Prop :=
  forall w, files (snd (m w)) = files w /\ trace (snd (m w)) = trace w.

(** ** The encoders

    [df.to_csv(p, index=False)], [df.to_json(p, orient='records',
    date_format='iso')], [df.to_parquet(p, index=False)] and
    [df.to_excel(p, index=False)] are pandas' own: [encode f df] is the
    file content the encoder of format [f] produces for [df], or the
    exception it raises (a value it cannot encode, a missing engine).  An
    export that succeeds leaves the content at [p]; one that fails leaves the
    tree as it was. *)
Variable encode : format -> DataFrame -> result string.

Definition export_result (f : format) (df : DataFrame) (p : Path) (es : entries)
  : result entries :=
  content <- encode f df ;;
  write_file es p content.

Definition export (f : format) (df : DataFrame) (p : Path) : M G unit :=
  fun w =>
    let w1 := log (Export f p df) w in
    match export_result f df p (files w1) with
    | Ok es => (Ok tt, set_files es w1)
    | Raise e => (Raise e, w1)
    end.

End Monad.

(** The exit status of the interpreter: 0 when the script ends normally, 1
    when an exception reaches the top. *)
Definition exit_status {A} (r : result A) : Z :=
  match r with Ok _ => 0 | Raise _ => 1 end.

(** The events of one kind in a trace. *)
Definition exports (t : list event) : list (format * Path) :=
  flat_map (fun ev => match ev with Export f p _ => [(f, p)] | _ => [] end) t.


Definition stderr (t : list event) : list string :=
  flat_map (fun ev => match ev with Stderr s => [s] | _ => [] end) t.

End IO.

Notation "x <-- m ;; k" := (IO.bindM m (fun x => k))
  (at level 61, m at next level, right associativity).
Notation "m ;;; k" := (IO.bindM m (fun _ => k))
  (at level 61, right associativity).

(* ===================================================================== *)
(** * create_test_samples.py *)
(* ===================================================================== *)

Module Samples.
Import Py Pandas Os IO.

Definition categories : list string := ["A"; "B"; "C"].

(** The record appended on lines 13-20 for the loop index [i]; [today] is
    the value [date.today()] returned on line 11.  The entries are evaluated
    in the order written. *)
Definition record (today : date) (prefix : string) (i : Z) : result dict :=
  let name := prefix ++ "_item_" ++ str_int i in
  product <- int_mul_float i (float_lit 11 10) ;;
  let value := round product 2 in
  delta <- timedelta i ;;
  day <- date_sub today delta ;;
  let flag := i mod 2 =? 0 in
  category <- list_getitem categories ((i - 1) mod Z.of_nat (List.length categories)) ;;
  Ok [("id", VInt i); ("name", VStr name); ("value", VFloat value);
      ("date", VDate day); ("flag", VBool flag); ("category", VStr category)].

Definition append_record (today : date) (prefix : string)
  (data : list dict) (i : Z) : result (list dict) :=
  r <- record today prefix i ;;
  Ok (data ++ [r])%list.

Definition generate_data (today : date) (prefix : string) (rows : Z)
  : result DataFrame :=
  data <- for_each (append_record today prefix) (range 1 (rows + 1)) [] ;;
  Ok (DataFrame_of_records data).

(** The record of index [i] when nothing raises, and the keys it has. *)
Definition record_at (today : date) (prefix : string) (i : Z) : dict :=
  [("id", VInt i);
   ("name", VStr (prefix ++ "_item_" ++ str_int i));
   ("value", VFloat (round (float_mul (nearest_double i) (float_lit 11 10)) 2));
   ("date", VDate (mk_date (toordinal today - i)));
   ("flag", VBool (i mod 2 =? 0));
   ("category", VStr (nth (Z.to_nat ((i - 1) mod 3)) categories ""))].

(** Whether [round(i * c, 2)] is the double of the decimal [11 i / 10]. *)
Definition value_is_decimal (c : float) (i : Z) : bool :=
  same_float (round (float_mul (nearest_double i) c) 2)
             (float_lit (Z.to_pos (11 * i)) 10).

Definition sample_columns : list string :=
  ["id"; "name"; "value"; "date"; "flag"; "category"].

(** ** The writer (lines 23-48) *)

Section Writer.
Context {G : Type}.
Variable encode : format -> DataFrame -> result string.

Definition write_files (df : DataFrame) (path_prefix : Path) : M G unit :=
  Path_mkdir true true (parent path_prefix) ;;;
  csv_path <-- lift (with_suffix path_prefix ".csv") ;;
  json_path <-- lift (with_suffix path_prefix ".json") ;;
  parquet_path <-- lift (with_suffix path_prefix ".parquet") ;;
  xlsx_path <-- lift (with_suffix path_prefix ".xlsx") ;;
  try_except
    (export encode CSV df csv_path ;;;
     print ("Written CSV: " ++ path_str csv_path))
    (fun e => print_err ("Error writing CSV to " ++ path_str csv_path
                         ++ ": " ++ exn_msg e)) ;;;
  try_except
    (export encode JSON df json_path ;;;
     print ("Written JSON: " ++ path_str json_path))
    (fun e => print_err ("Error writing JSON to " ++ path_str json_path
                         ++ ": " ++ exn_msg e)) ;;;
  try_except
    (export encode Parquet df parquet_path ;;;
     print ("Written Parquet: " ++ path_str parquet_path))
    (fun e => print_err ("Error writing Parquet to " ++ path_str parquet_path
                         ++ ": " ++ exn_msg e)) ;;;
  try_except
    (export encode Excel df xlsx_path ;;;
     print ("Written Excel: " ++ path_str xlsx_path))
    (fun e => print_err ("Error writing Excel to " ++ path_str xlsx_path
                         ++ ": " ++ exn_msg e)).

End Writer.

(** ** What the writer does, format by format *)

Definition formats : list format := [CSV; JSON; Parquet; Excel].

Definition extension (f : format) : string :=
  match f with
  | CSV => ".csv"
  | JSON => ".json"
  | Parquet => ".parquet"
  | Excel => ".xlsx"
  end.

Definition label (f : format) : string :=
  match f with
  | CSV => "CSV"
  | JSON => "JSON"
  | Parquet => "Parquet"
  | Excel => "Excel"
  end.

(** The file of format [f] beside [p]: same directory, same stem. *)
Definition target (p : Path) (f : format) : Path :=
  joinpath (parent p) (stem (name p) ++ extension f).

Section Outcome.
Context {G : Type}.
Variable encode : format -> DataFrame -> result string.

(** Why the export of [df] to [t] fails in a directory that exists: the
    encoder raises, or [t] is a directory. *)
Definition failure (es : entries) (f : format) (df : DataFrame) (t : Path)
  : option exn :=
  match encode f df with
  | Raise e => Some e
  | Ok _ =>
      if is_dir es t then Some (IsADirectoryError (path_str t)) else None
  end.

(** The line an attempt prints. *)
Definition report (f : format) (t : Path) (fail : option exn) : event :=
  match fail with
  | None => Stdout ("Written " ++ label f ++ ": " ++ path_str t)
  | Some e => Stderr ("Error writing " ++ label f ++ " to " ++ path_str t
                      ++ ": " ++ exn_msg e)
  end.

(** The events of the attempt for format [f], in a tree [es]. *)
Definition attempt_events (es : entries) (df : DataFrame) (p : Path) (f : format)
  : list event :=
  [Export f (target p f) df;
   report f (target p f) (failure es f df (target p f))].

(** One [try] block of [write_files]. *)
Definition attempt (df : DataFrame) (p : Path) (f : format) : M G unit :=
  try_except
    (export encode f df (target p f) ;;;
     print ("Written " ++ label f ++ ": " ++ path_str (target p f)))
    (fun e => print_err ("Error writing " ++ label f ++ " to "
                         ++ path_str (target p f) ++ ": " ++ exn_msg e)).

End Outcome.

(** ** The script (lines 50-79)

    [argparse] turns the command line into [args]; the world's [globals] is
    the calendar day [date.today()] returns. *)
Record Args := mk_args {
  base_dir : Path;
  sample_rows : Z;
  sample2_rows : Z
}.

Definition default_args : Args :=
  {| base_dir := ["/"; "Users"; "vitruves"; "Developer"; "GitHub"; "nail";
                  "tests"; "fixtures"];
     sample_rows := 5;
     sample2_rows := 8 |}.

Section Script.
Variable encode : format -> DataFrame -> result string.

Definition main (args : Args) : M date unit :=
  let fixtures_dir := base_dir args in
  for_eachM [("sample", sample_rows args); ("sample2", sample2_rows args)]
    (fun '(prefix, rows) =>
       let path_prefix := joinpath fixtures_dir prefix in
       today <-- get_globals ;;
       df <-- lift (generate_data today prefix rows) ;;
       write_files encode df path_prefix).

End Script.

(** The path stems of the two datasets. *)
Definition sample_path (args : Args) : Path := joinpath (base_dir args) "sample".
Definition sample2_path (args : Args) : Path := joinpath (base_dir args) "sample2".

(** Encoders to run the scripts with: each format gives a file, but for
    Excel, whose engine is not installed. *)
Definition encode_without_excel (f : format) (df : DataFrame) : result string :=
  match f with
  | Excel => Raise (mk_exn "ModuleNotFoundError" "No module named 'openpyxl'")
  | _ => Ok (label f)
  end.

End Samples.

(* ===================================================================== *)
(** * create_test_data.py *)
(* ===================================================================== *)

Module TestData.
Import Py Pandas Os IO.

Section Numpy.

(** ** numpy's global generator

    [np.random] keeps one generator state for the process.  Its algorithm
    (the Mersenne Twister and numpy's bounded draws) is numpy's own: here
    [rng_state] is the state, [seed_state s] the state [np.random.seed(s)]
    installs, which depends on [s] alone, and [bounded rng st] one draw
    from [0..rng] with the state that follows. *)
Variable rng_state : Type.
Variable seed_state : Z -> rng_state.
Variable bounded : Z -> rng_state -> Z * rng_state.

Definition np_random_seed (s : Z) : M rng_state unit :=
  fun w => (Ok tt, set_globals (seed_state s) w).

Fixpoint draws (rng : Z) (n : nat) (st : rng_state) : list Z * rng_state :=
  match n with
  | O => ([], st)
  | S n' =>
      let (x, st1) := bounded rng st in
      let (xs, st2) := draws rng n' st1 in
      (x :: xs, st2)
  end.

(** [np.random.randint(low, high, size)]: [size] draws from [low..high-1]. *)
Definition randint (low high size : Z) : M rng_state (list Z) :=
  if high <=? low then raise (ValueError "low >= high")
  else if size <? 0 then raise (ValueError "negative dimensions are not allowed")
  else fun w =>
         let (xs, st) := draws (high - low - 1) (Z.to_nat size) (globals w) in
         (Ok (map (Z.add low) xs), set_globals st w).

Fixpoint take {A} (a : list A) (idx : list Z) : result (list A) :=
  match idx with
  | [] => Ok []
  | i :: idx' =>
      x <- list_getitem a i ;;
      xs <- take a idx' ;;
      Ok (x :: xs)
  end.

(** [np.random.choice(a, size)]: [size] indices drawn by [randint], then
    the elements at these indices. *)
Definition choice {A} (a : list A) (size : Z) : M rng_state (list A) :=
  match a with
  | [] => raise (ValueError "'a' cannot be empty unless no samples are taken")
  | _ =>
      idx <-- randint 0 (Z.of_nat (List.length a)) size ;;
      lift (take a idx)
  end.

(** [pd.date_range(start, periods=n, freq='D')] for [n >= 0] *)
Definition date_range (start : date) (periods : Z) : list date :=
  map (fun k => mk_date (toordinal start + k)) (range 0 periods).

(** 2023-01-01 *)
Definition date_2023_01_01 : date := mk_date 738521.

Definition n_rows : Z := 1000.

(** Lines 8-29: the seed, the columns in the order the dict literal
    evaluates them, and the frame. *)
Definition test_data_frame : M rng_state DataFrame :=
  np_random_seed 42 ;;;
  source <-- choice ["source_A"; "source_B"; "source_C"] n_rows ;;
  let product := map (fun i => "product_" ++ str_int i) (range 0 n_rows) in
  overall_rating <-- randint 1 6 n_rows ;;
  condition <-- choice ["condition_1"; "condition_2"; "condition_3"] n_rows ;;
  let comment := map (fun i => "comment_" ++ str_int i) (range 0 n_rows) in
  sex <-- choice ["M"; "F"] n_rows ;;
  duration <-- randint 1 365 n_rows ;;
  let date := firstn (Z.to_nat n_rows) (date_range date_2023_01_01 n_rows) in
  age <-- randint 18 80 n_rows ;;
  let username := map (fun i => "user_" ++ str_int i) (range 0 n_rows) in
  patient_type <-- choice ["type_A"; "type_B"] n_rows ;;
  INN <-- choice ["INN_1"; "INN_2"; "INN_3"] n_rows ;;
  prediction <-- choice ["positive"; "negative"; "neutral"] n_rows ;;
  predicted_label <-- randint 0 3 n_rows ;;
  lift (DataFrame_of_columns
          [("source", map VStr source);
           ("product", map VStr product);
           ("overall_rating", map VInt overall_rating);
           ("condition", map VStr condition);
           ("comment", map VStr comment);
           ("sex", map VStr sex);
           ("duration", map VInt duration);
           ("date", map VDate date);
           ("age", map VInt age);
           ("username", map VStr username);
           ("patient_type", map VStr patient_type);
           ("INN", map VStr INN);
           ("prediction", map VStr prediction);
           ("predicted_label", map VInt predicted_label)]).

(** [repr] of a list of strings *)
Definition repr_list (xs : list string) : string :=
  "[" ++ String.concat ", " (map (fun s => "'" ++ s ++ "'") xs) ++ "]".

Definition is_int (v : value) : bool := match v with VInt _ => true | _ => false end.
Definition is_date (v : value) : bool := match v with VDate _ => true | _ => false end.

(** The dtype pandas gives a column of this script: 64-bit integers,
    timestamps, and [object] for strings. *)
Definition dtype (vs : list value) : string :=
  match vs with
  | [] => "object"
  | _ => if forallb is_int vs then "int64"
         else if forallb is_date vs then "datetime64[ns]"
         else "object"
  end.

Definition test_data_columns : list string :=
  ["source"; "product"; "overall_rating"; "condition"; "comment"; "sex";
   "duration"; "date"; "age"; "username"; "patient_type"; "INN";
   "prediction"; "predicted_label"].

Definition output_dir : Path := ["test_data"].
Definition output_file : Path := ["test_data"; "test_reviews.parquet"].

(** A statement that reads the generator only: from equal generator states
    it gives equal results and leaves equal generator states. *)
Definition rng_only {A} (m : M rng_state A) : Prop :=
  forall w1 w2, globals w1 = globals w2 ->
    fst (m w1) = fst (m w2) /\ globals (snd (m w1)) = globals (snd (m w2)).

Variable encode : format -> DataFrame -> result string.

(** Lines 6-44. *)
Definition create_test_data : M rng_state Path :=
  df <-- test_data_frame ;;
  let output_dir : Path := ["test_data"] in
  Path_mkdir false true output_dir ;;;
  let output_file := joinpath output_dir "test_reviews.parquet" in
  export encode Parquet df output_file ;;;
  print ("Created test data: " ++ path_str output_file) ;;;
  print ("Columns: " ++ repr_list (columns df)) ;;;
  print "Data types:" ;;;
  for_eachM (cols df)
    (fun '(col, vs) => print ("  " ++ col ++ ": " ++ dtype vs)) ;;;
  ret output_file.

End Numpy.

Arguments np_random_seed {rng_state} seed_state s.
Arguments draws {rng_state} bounded rng n st.
Arguments randint {rng_state} bounded low high size.
Arguments choice {rng_state} bounded {A} a size.
Arguments test_data_frame {rng_state} seed_state bounded.
Arguments create_test_data {rng_state} seed_state bounded encode.
Arguments rng_only {rng_state A} m.

(** ** A generator to run the script with

    A linear congruential generator: the state is a 32-bit word, a bounded
    draw is the next word reduced modulo the size of the range. *)
Definition lcg_next (st : Z) : Z := (1664525 * st + 1013904223) mod 4294967296.

Definition lcg_seed (s : Z) : Z := s mod 4294967296.

Definition lcg_bounded (rng : Z) (st : Z) : Z * Z :=
  let st' := lcg_next st in (st' mod (rng + 1), st').

End TestData.

(* ===================================================================== *)
(** * Properties *)
(* ===================================================================== *)

Import Py Pandas Os IO Samples TestData.

(** ** The model at work *)

(** The literal [1.1] is the double 0x3FF199999999999A. *)
Example float_lit_1_1 : float_lit 11 10 = S754_finite false 4953959590107546 (-52).
Proof. reflexivity. Qed.

(** [3 * 1.1] is 3.3000000000000003, which [round(_, 2)] brings to [3.3]. *)
Example round_3_3 :
  int_mul_float 3 (float_lit 11 10) = Ok (S754_finite false 7430939385161319 (-51))
  /\ round (S754_finite false 7430939385161319 (-51)) 2 = float_lit 33 10.
Proof. split; reflexivity. Qed.

(** Ties go to the even digit: [round(0.125, 2) == 0.12] and
    [round(0.375, 2) == 0.38]; [2.675] is below the tie and gives [2.67]. *)
Example round_ties :
  round (float_lit 125 1000) 2 = float_lit 12 100
  /\ round (float_lit 375 1000) 2 = float_lit 38 100
  /\ round (float_lit 2675 1000) 2 = float_lit 267 100.
Proof. repeat split; reflexivity. Qed.

Example with_suffix_examples :
  with_suffix ["/"; "tmp"; "sample"] ".csv" = Ok ["/"; "tmp"; "sample.csv"]
  /\ with_suffix ["archive.tar.gz"] ".json" = Ok ["archive.tar.json"]
  /\ with_suffix [".bashrc"] ".xlsx" = Ok [".bashrc.xlsx"]
  /\ path_str ["/"; "tmp"; "sample.csv"] = "/tmp/sample.csv".
Proof. repeat split; reflexivity. Qed.

(** Three rows on 2026-11-03. *)
Example generate_data_three_rows :
  generate_data (mk_date 739923) "s" 3
  = Ok {| nrows := 3;
          cols := [("id", [VInt 1; VInt 2; VInt 3]);
                   ("name", [VStr "s_item_1"; VStr "s_item_2"; VStr "s_item_3"]);
                   ("value", [VFloat (float_lit 11 10); VFloat (float_lit 22 10);
                              VFloat (float_lit 33 10)]);
                   ("date", [VDate (mk_date 739922); VDate (mk_date 739921);
                             VDate (mk_date 739920)]);
                   ("flag", [VBool false; VBool true; VBool false]);
                   ("category", [VStr "A"; VStr "B"; VStr "C"])] |}.
Proof. vm_compute. reflexivity. Qed.

(** A run of the writer without the Excel engine, into a tree where
    [out/t.json] is a directory. *)
Example write_files_trace :
  let df := mk_frame 0 [] in
  write_files encode_without_excel df ["out"; "t"]
    (mk_world tt [("out", Dir [("t.json", Dir [])])] [])
  = (Ok tt,
     mk_world tt
       [("out", Dir [("t.json", Dir []); ("t.csv", File "CSV");
                     ("t.parquet", File "Parquet")])]
       [Mkdir ["out"];
        Export CSV ["out"; "t.csv"] df;
        Stdout "Written CSV: out/t.csv";
        Export JSON ["out"; "t.json"] df;
        Stderr "Error writing JSON to out/t.json: [Errno 21] Is a directory: 'out/t.json'";
        Export Parquet ["out"; "t.parquet"] df;
        Stdout "Written Parquet: out/t.parquet";
        Export Excel ["out"; "t.xlsx"] df;
        Stderr "Error writing Excel to out/t.xlsx: No module named 'openpyxl'"]).
Proof. vm_compute. reflexivity. Qed.

(** ** Ranges and loops *)

Lemma range_length a b : List.length (range a b) = Z.to_nat (b - a).
Proof. unfold range. now rewrite length_map, length_seq. Qed.

Lemma range_nth a b k :
  (k < Z.to_nat (b - a))%nat -> nth_error (range a b) k = Some (a + Z.of_nat k).
Proof.
  intros H. unfold range.
  rewrite nth_error_map, nth_error_seq.
  destruct (Nat.ltb_spec k (Z.to_nat (b - a))); [reflexivity | lia].
Qed.

Lemma range_In a b i : In i (range a b) <-> a <= i < b.
Proof.
  unfold range. rewrite in_map_iff. split.
  - intros (k & <- & Hk). apply in_seq in Hk. lia.
  - intros H. exists (Z.to_nat (i - a)). split; [lia |].
    apply in_seq. lia.
Qed.

Lemma map_seq_from {A} (f : nat -> A) n s :
  map f (seq s n) = map (fun k => f (s + k)%nat) (seq 0 n).
Proof.
  revert s f. induction n as [|n IH]; intros s f; [reflexivity |].
  cbn [seq map]. rewrite Nat.add_0_r. f_equal.
  rewrite (IH (S s)), (IH 1%nat). apply map_ext. intros k.
  f_equal. lia.
Qed.

Lemma range_split a b c :
  a <= b <= c -> range a c = (range a b ++ range b c)%list.
Proof.
  intros H. unfold range.
  replace (Z.to_nat (c - a)) with (Z.to_nat (b - a) + Z.to_nat (c - b))%nat by lia.
  rewrite seq_app, map_app. f_equal.
  rewrite Nat.add_0_l, map_seq_from. apply map_ext. intros k. lia.
Qed.

Lemma range_cons a b : a < b -> range a b = a :: range (a + 1) b.
Proof.
  intros H. unfold range.
  replace (Z.to_nat (b - a)) with (S (Z.to_nat (b - (a + 1)))) by lia.
  cbn [seq map]. f_equal; [lia |].
  rewrite map_seq_from. apply map_ext. intros k. lia.
Qed.

Lemma range_empty a b : b <= a -> range a b = [].
Proof. intros H. unfold range. now replace (Z.to_nat (b - a)) with O by lia. Qed.

Lemma for_each_app {A S} (body : S -> A -> result S) xs ys s :
  for_each body (xs ++ ys) s = (s' <- for_each body xs s ;; for_each body ys s').
Proof.
  revert s. induction xs as [|x xs IH]; intros s; cbn; [reflexivity |].
  destruct (body s x); [apply IH | reflexivity].
Qed.

(** ** The records of [generate_data] *)

Lemma categories_getitem i :
  list_getitem categories ((i - 1) mod Z.of_nat (List.length categories))
  = Ok (nth (Z.to_nat ((i - 1) mod 3)) categories "").
Proof.
  change (Z.of_nat (List.length categories)) with 3.
  assert (H : 0 <= (i - 1) mod 3 < 3) by (apply Z.mod_pos_bound; lia).
  unfold list_getitem.
  destruct (Z.to_nat ((i - 1) mod 3)) as [|[|[|n]]] eqn:E; try reflexivity; lia.
Qed.

Lemma float_of_int_ok i :
  Z.abs i <= MAXORDINAL -> float_of_int i = Ok (nearest_double i).
Proof.
  intros Hi. unfold float_of_int.
  assert (Hbig : MAXORDINAL < 2 ^ 1024 - 2 ^ 970) by (vm_compute; reflexivity).
  destruct (Z.ltb_spec (Z.abs i) (2 ^ 1024 - 2 ^ 970)) as [_ | Hge]; [reflexivity |].
  exfalso. apply (Z.lt_irrefl MAXORDINAL).
  eapply Z.lt_le_trans; [exact Hbig |]. eapply Z.le_trans; eassumption.
Qed.

Lemma record_ok today prefix i :
  date_valid today -> 1 <= i < toordinal today ->
  record today prefix i = Ok (record_at today prefix i).
Proof.
  intros Hv Hi. unfold date_valid in Hv.
  unfold record, int_mul_float. rewrite float_of_int_ok by lia. cbn [bind].
  unfold MAXORDINAL in Hv. unfold timedelta, date_sub, MAXORDINAL.
  destruct (Z.leb_spec (Z.abs i) 999999999); [| lia]. cbn [bind].
  destruct (Z.leb_spec 1 (toordinal today - i)); [| lia].
  destruct (Z.leb_spec (toordinal today - i) 3652059); [| lia]. cbn [andb bind].
  rewrite categories_getitem. reflexivity.
Qed.

Lemma record_overflow today prefix :
  date_valid today ->
  record today prefix (toordinal today)
  = Raise (OverflowError "date value out of range").
Proof.
  intros Hv. unfold date_valid in Hv.
  unfold record, int_mul_float. rewrite float_of_int_ok by lia. cbn [bind].
  unfold MAXORDINAL in Hv. unfold timedelta, date_sub.
  destruct (Z.leb_spec (Z.abs (toordinal today)) 999999999); [| lia]. cbn [bind].
  rewrite Z.sub_diag. reflexivity.
Qed.

Lemma append_records_ok today prefix xs data :
  date_valid today -> (forall i, In i xs -> 1 <= i < toordinal today) ->
  for_each (append_record today prefix) xs data
  = Ok (data ++ map (record_at today prefix) xs)%list.
Proof.
  intros Hv. revert data. induction xs as [|x xs IH]; intros data Hxs.
  - cbn. now rewrite app_nil_r.
  - cbn [for_each map]. unfold append_record at 1.
    rewrite record_ok by (auto; apply Hxs; now left). cbn [bind].
    rewrite IH by (intros i Hi; apply Hxs; now right).
    now rewrite <- app_assoc.
Qed.

(** Below the ordinal of the day the loop appends one record per index. *)
Lemma generate_data_ok today prefix rows :
  date_valid today -> rows < toordinal today ->
  generate_data today prefix rows
  = Ok (DataFrame_of_records (map (record_at today prefix) (range 1 (rows + 1)))).
Proof.
  intros Hv Hr. unfold generate_data.
  rewrite append_records_ok; [reflexivity | assumption |].
  intros i Hi. apply range_In in Hi. lia.
Qed.

(** From the ordinal of the day on, the date of the row of that index is
    before 0001-01-01 and the subtraction raises. *)
Lemma generate_data_overflow today prefix rows :
  date_valid today -> toordinal today <= rows ->
  generate_data today prefix rows
  = Raise (OverflowError "date value out of range").
Proof.
  intros Hv Hr. unfold generate_data. pose proof Hv as [Hlo Hhi].
  rewrite (range_split 1 (toordinal today) (rows + 1)) by lia.
  rewrite for_each_app, append_records_ok;
    [| assumption | intros i Hi; apply range_In in Hi; lia].
  cbn [bind]. rewrite range_cons by lia. cbn [for_each].
  unfold append_record at 1. now rewrite record_overflow.
Qed.

(** ** Frames built from records *)

Lemma column_map (f : string -> list value) c ks :
  column c (map (fun k => (k, f k)) ks)
  = if existsb (String.eqb c) ks then Some (f c) else None.
Proof.
  induction ks as [|k ks IH]; cbn; [reflexivity |].
  destruct (String.eqb_spec c k) as [-> | _]; [reflexivity | exact IH].
Qed.

Lemma keys_union_records today prefix xs :
  keys_union (map (record_at today prefix) xs)
  = match xs with [] => [] | _ => sample_columns end.
Proof.
  assert (H : forall ys, fold_left (fun ks d => fold_left add_key (map fst d) ks)
                (map (record_at today prefix) ys) sample_columns = sample_columns).
  { induction ys as [|y ys IH]; [reflexivity | exact IH]. }
  destruct xs as [|x xs]; [reflexivity |]. apply (H xs).
Qed.

Lemma cell_of_records today prefix xs c k i :
  existsb (String.eqb c) sample_columns = true ->
  nth_error xs k = Some i ->
  cell (DataFrame_of_records (map (record_at today prefix) xs)) c k
  = Some (get_or_nan c (record_at today prefix i)).
Proof.
  intros Hc Hk. unfold cell, DataFrame_of_records. cbn [cols].
  rewrite keys_union_records.
  destruct xs as [|x xs]; [destruct k; discriminate |].
  rewrite column_map, Hc, nth_error_map, nth_error_map, Hk. reflexivity.
Qed.

(** C1 (amended).  On a day [today] and for a row count [N] with
    [1 <= N < today.toordinal()], [generate_data] returns a table in which
    the row of index [i] (position [i - 1]), for every [i] in [1..N], has
    [id = i], [name = prefix + '_item_' + str(i)],
    [value = round(i * 1.1, 2)], [flag = (i % 2 == 0)] and
    [category = ['A','B','C'][(i - 1) % 3]]; with prefix ['sample'] and
    [N = 5] the columns are ids 1..5, names sample_item_1..sample_item_5,
    values 1.1, 2.2, 3.3, 4.4, 5.5, flags False, True, False, True, False
    and categories A, B, C, A, B. *)
Theorem generate_data_rows today prefix N :
  date_valid today -> 1 <= N < toordinal today ->
  exists df,
    generate_data today prefix N = Ok df /\
    (forall i, 1 <= i <= N ->
       cell df "id" (Z.to_nat (i - 1)) = Some (VInt i) /\
       cell df "name" (Z.to_nat (i - 1))
         = Some (VStr (prefix ++ "_item_" ++ str_int i)) /\
       cell df "value" (Z.to_nat (i - 1))
         = Some (VFloat (round (float_mul (nearest_double i) (float_lit 11 10)) 2)) /\
       cell df "flag" (Z.to_nat (i - 1)) = Some (VBool (i mod 2 =? 0)) /\
       cell df "category" (Z.to_nat (i - 1))
         = Some (VStr (nth (Z.to_nat ((i - 1) mod 3)) ["A"; "B"; "C"] ""))) /\
    (prefix = "sample" -> N = 5 ->
       column "id" (cols df) = Some (map VInt [1; 2; 3; 4; 5]) /\
       column "name" (cols df)
         = Some (map VStr ["sample_item_1"; "sample_item_2"; "sample_item_3";
                           "sample_item_4"; "sample_item_5"]) /\
       column "value" (cols df)
         = Some (map VFloat [float_lit 11 10; float_lit 22 10; float_lit 33 10;
                             float_lit 44 10; float_lit 55 10]) /\
       column "flag" (cols df)
         = Some (map VBool [false; true; false; true; false]) /\
       column "category" (cols df)
         = Some (map VStr ["A"; "B"; "C"; "A"; "B"])).
Proof.
  intros Hv HN. eexists. split; [apply generate_data_ok; [assumption | lia] |].
  split.
  - intros i Hi.
    assert (Hk : nth_error (range 1 (N + 1)) (Z.to_nat (i - 1)) = Some i).
    { rewrite range_nth by lia. f_equal. lia. }
    repeat split;
      (erewrite cell_of_records; [reflexivity | reflexivity | exact Hk]).
  - intros -> ->. repeat split; vm_compute; reflexivity.
Qed.

(** The instance of C1 on 2026-11-03 (day 739923) with prefix ['sample']
    and five rows. *)
Lemma generate_data_rows_witness :
  exists df,
    generate_data (mk_date 739923) "sample" 5 = Ok df /\
    cell df "id" 4 = Some (VInt 5) /\
    column "value" (cols df)
      = Some (map VFloat [float_lit 11 10; float_lit 22 10; float_lit 33 10;
                          float_lit 44 10; float_lit 55 10]).
Proof.
  destruct (generate_data_rows (mk_date 739923) "sample" 5)
    as (df & Hdf & Hrow & Hfive).
  - unfold date_valid, MAXORDINAL. cbn. lia.
  - cbn. lia.
  - exists df. split; [exact Hdf |]. split.
    + apply (Hrow 5). lia.
    + apply (Hfive eq_refl eq_refl).
Defined.

(** C1 as stated fails for a large row count: on 2026-11-03 a request for
    739923 rows raises [OverflowError] at the row whose date would be the day
    before 0001-01-01, and no table is returned. *)
Lemma generate_data_rows_overflow :
  generate_data (mk_date 739923) "sample" 739923
    = Raise (OverflowError "date value out of range")
  /\ ~ (exists df, generate_data (mk_date 739923) "sample" 739923 = Ok df
                   /\ cell df "id" 0 = Some (VInt 1)).
Proof.
  assert (H : generate_data (mk_date 739923) "sample" 739923
              = Raise (OverflowError "date value out of range")).
  { apply generate_data_overflow; unfold date_valid, MAXORDINAL; cbn; lia. }
  split; [exact H |]. intros (df & Hdf & _). rewrite H in Hdf. discriminate.
Qed.

Lemma columns_of_records today prefix xs :
  columns (DataFrame_of_records (map (record_at today prefix) xs))
  = match xs with [] => [] | _ => sample_columns end.
Proof.
  unfold columns, DataFrame_of_records. cbn [cols].
  rewrite map_map. cbn [fst]. rewrite map_id. apply keys_union_records.
Qed.

Lemma column_lengths_of_records data :
  Forall (fun c => List.length (snd c) = List.length data)
         (cols (DataFrame_of_records data)).
Proof.
  unfold DataFrame_of_records. cbn [cols]. apply Forall_forall.
  intros c Hc. apply in_map_iff in Hc as (k & <- & _). cbn. apply length_map.
Qed.

Lemma get_other_than_date c day1 day2 prefix i :
  c <> "date" ->
  get_or_nan c (record_at day1 prefix i) = get_or_nan c (record_at day2 prefix i).
Proof.
  intros Hc. unfold get_or_nan, record_at. cbn [dict_get].
  repeat match goal with
         | |- context [String.eqb c ?k] =>
             destruct (String.eqb_spec c k); [try reflexivity; try contradiction |]
         end.
  reflexivity.
Qed.

Lemma column_of_records today prefix xs c :
  column c (cols (DataFrame_of_records (map (record_at today prefix) xs)))
  = match xs with
    | [] => None
    | _ => if existsb (String.eqb c) sample_columns
           then Some (map (fun i => get_or_nan c (record_at today prefix i)) xs)
           else None
    end.
Proof.
  unfold DataFrame_of_records. cbn [cols]. rewrite keys_union_records.
  destruct xs as [|x xs]; [reflexivity |].
  rewrite column_map, map_map. reflexivity.
Qed.

(** C10 (amended).  Two runs of [generate_data] with the same prefix and the
    same row count [N], on days whose ordinals are both above [N], return
    tables with the same number of rows and the same columns, equal in every
    column but ['date']; in each, row [i] holds the date [i] days before the
    day of the run, so that on different days (and with at least one row)
    the ['date'] columns differ. *)
Theorem generate_data_two_runs day1 day2 prefix N :
  date_valid day1 -> date_valid day2 ->
  N < toordinal day1 -> N < toordinal day2 ->
  exists df1 df2,
    generate_data day1 prefix N = Ok df1 /\
    generate_data day2 prefix N = Ok df2 /\
    nrows df1 = nrows df2 /\
    columns df1 = columns df2 /\
    (forall c, c <> "date" -> column c (cols df1) = column c (cols df2)) /\
    (forall i, 1 <= i <= N ->
       cell df1 "date" (Z.to_nat (i - 1))
         = Some (VDate (mk_date (toordinal day1 - i))) /\
       cell df2 "date" (Z.to_nat (i - 1))
         = Some (VDate (mk_date (toordinal day2 - i)))) /\
    (1 <= N -> toordinal day1 <> toordinal day2 ->
       column "date" (cols df1) <> column "date" (cols df2)).
Proof.
  intros Hv1 Hv2 H1 H2. do 2 eexists.
  split; [apply generate_data_ok; assumption |].
  split; [apply generate_data_ok; assumption |].
  split; [cbn; now rewrite !length_map |].
  split; [now rewrite !columns_of_records |].
  split; [| split].
  - intros c Hc. rewrite !column_of_records.
    destruct (range 1 (N + 1)) as [|x xs]; [reflexivity |].
    destruct (existsb (String.eqb c) sample_columns); [| reflexivity].
    f_equal. apply map_ext. intros i. now apply get_other_than_date.
  - intros i Hi.
    assert (Hk : nth_error (range 1 (N + 1)) (Z.to_nat (i - 1)) = Some i).
    { rewrite range_nth by lia. f_equal. lia. }
    split; (erewrite cell_of_records; [reflexivity | reflexivity | exact Hk]).
  - intros HN Hd. rewrite !column_of_records, range_cons by lia.
    cbn. intros E. injection E as E _. lia.
Qed.

(** The instance of C10 for 2026-11-03 and 2026-11-04, five rows. *)
Lemma generate_data_two_runs_witness :
  exists df1 df2,
    generate_data (mk_date 739923) "sample" 5 = Ok df1 /\
    generate_data (mk_date 739924) "sample" 5 = Ok df2 /\
    column "value" (cols df1) = column "value" (cols df2) /\
    cell df1 "date" 0 = Some (VDate (mk_date 739922)) /\
    cell df2 "date" 0 = Some (VDate (mk_date 739923)).
Proof.
  destruct (generate_data_two_runs (mk_date 739923) (mk_date 739924) "sample" 5)
    as (df1 & df2 & E1 & E2 & _ & _ & Hcols & Hdate & _);
    try (unfold date_valid, MAXORDINAL; cbn; lia).
  exists df1, df2. split; [exact E1 |]. split; [exact E2 |].
  split; [apply Hcols; discriminate |].
  apply (Hdate 1). lia.
Defined.

(** On 2026-11-03 (day 739923) a request for 739923 rows raises; one day
    later it gives a table. *)
(** C10 as stated fails when the row count lies between the ordinals of
    the two days: on 2026-11-03 (day 739923) a request for 739923 rows
    raises, one day later it returns a table. *)
Lemma generate_data_two_runs_differ :
  generate_data (mk_date 739923) "sample" 739923
    = Raise (OverflowError "date value out of range")
  /\ exists df, generate_data (mk_date 739924) "sample" 739923 = Ok df
                /\ columns df = sample_columns.
Proof.
  split.
  - apply generate_data_overflow; unfold date_valid, MAXORDINAL; cbn; lia.
  - eexists. split.
    + apply generate_data_ok; unfold date_valid, MAXORDINAL; cbn; lia.
    + rewrite columns_of_records, range_cons by lia. reflexivity.
Qed.

(** ** The file tree *)

Lemma assoc_update_eq k n es : assoc k (update k n es) = Some n.
Proof.
  induction es as [|[k' n'] es IH]; cbn.
  - now rewrite String.eqb_refl.
  - destruct (String.eqb_spec k k') as [-> | Hne]; cbn.
    + now rewrite String.eqb_refl.
    + destruct (String.eqb_spec k k'); [contradiction | exact IH].
Qed.

Lemma assoc_update_neq k k' n es :
  k' <> k -> assoc k' (update k n es) = assoc k' es.
Proof.
  intros Hne. induction es as [|[k0 n0] es IH]; cbn.
  - destruct (String.eqb_spec k' k); [contradiction | reflexivity].
  - destruct (String.eqb_spec k k0) as [-> | H0]; cbn.
    + destruct (String.eqb_spec k' k0); [contradiction | reflexivity].
    + destruct (String.eqb_spec k' k0); [reflexivity | exact IH].
Qed.

Lemma update_same k n es : assoc k es = Some n -> update k n es = es.
Proof.
  induction es as [|[k' n'] es IH]; cbn; [discriminate |].
  destruct (String.eqb_spec k k') as [-> | Hne].
  - now intros [= ->].
  - intros H. now rewrite IH.
Qed.

Lemma lookup_update c n es rest :
  lookup (update c n es) (c :: rest)
  = match n with
    | Dir sub => lookup sub rest
    | File content => match rest with [] => Some (File content) | _ => None end
    end.
Proof. cbn. now rewrite assoc_update_eq. Qed.

Lemma lookup_update_other c c' n es rest :
  c' <> c -> lookup (update c n es) (c' :: rest) = lookup es (c' :: rest).
Proof. intros H. cbn. now rewrite assoc_update_neq. Qed.

Lemma is_dir_cons es c rest :
  is_dir es (c :: rest) = true ->
  exists sub, assoc c es = Some (Dir sub) /\ is_dir sub rest = true.
Proof.
  unfold is_dir. cbn. destruct (assoc c es) as [[content | sub] |].
  - destruct rest; discriminate.
  - intros H. now exists sub.
  - discriminate.
Qed.

Lemma is_dir_prefix es q1 q2 : is_dir es (q1 ++ q2)%list = true -> is_dir es q1 = true.
Proof.
  revert es. induction q1 as [|c q1 IH]; intros es H; [reflexivity |].
  apply is_dir_cons in H as (sub & Hc & Hsub).
  unfold is_dir. cbn. rewrite Hc. apply (IH sub Hsub).
Qed.

Lemma is_dir_creatable es p : is_dir es p = true -> creatable es p = true.
Proof.
  revert es. induction p as [|c p IH]; intros es H; [reflexivity |].
  apply is_dir_cons in H as (sub & Hc & Hsub). cbn. rewrite Hc. now apply IH.
Qed.

Lemma lookup_empty p : p <> [] -> lookup [] p = None.
Proof. destruct p; [contradiction | reflexivity]. Qed.

(** A directory no component of which is a regular file is created, with
    the ancestors it lacks; what is below it is left as it was. *)
Lemma mkdir_in_parents_ok whole d : forall es,
  creatable es d = true ->
  exists es', mkdir_in whole true true es d = Ok es'
              /\ is_dir es' d = true
              /\ forall c, lookup es' (d ++ [c])%list = lookup es (d ++ [c])%list.
Proof.
  induction d as [|c rest IH]; intros es Hc.
  - exists es. repeat split.
  - cbn in Hc. cbn [mkdir_in]. destruct (assoc c es) as [[content | sub] |] eqn:E.
    + discriminate.
    + destruct (IH sub Hc) as (sub' & Hm & Hd & Hl). rewrite Hm. cbn [bind].
      exists (update c (Dir sub') es). split; [reflexivity |]. split.
      * unfold is_dir. now rewrite lookup_update.
      * intros x. cbn [app]. rewrite lookup_update, Hl. cbn. now rewrite E.
    + destruct rest as [|c' rest'].
      * exists (update c (Dir []) es). split; [reflexivity |]. split.
        -- unfold is_dir. now rewrite lookup_update.
        -- intros x. cbn [app]. rewrite lookup_update. cbn. now rewrite E.
      * destruct (IH [] eq_refl) as (sub' & Hm & Hd & Hl). rewrite Hm. cbn [bind].
        exists (update c (Dir sub') es). split; [reflexivity |]. split.
        -- unfold is_dir. now rewrite lookup_update.
        -- intros x. rewrite <- app_comm_cons, lookup_update, Hl.
           cbn. now rewrite E.
Qed.

Lemma mkdir_parents_ok d es :
  creatable es d = true ->
  exists es', mkdir true true es d = Ok es'
              /\ is_dir es' d = true
              /\ forall c, lookup es' (d ++ [c])%list = lookup es (d ++ [c])%list.
Proof. apply mkdir_in_parents_ok. Qed.

(** A regular file among the components makes the creation fail. *)
Lemma mkdir_in_parents_fail whole d : forall es,
  creatable es d = false -> exists e, mkdir_in whole true true es d = Raise e.
Proof.
  induction d as [|c rest IH]; intros es Hc; [discriminate |].
  cbn in Hc. cbn [mkdir_in]. destruct (assoc c es) as [[content | sub] |] eqn:E.
  - destruct rest; eexists; reflexivity.
  - destruct (IH sub Hc) as (e & He). rewrite He. now exists e.
  - discriminate.
Qed.

Lemma mkdir_parents_fail d es :
  creatable es d = false -> exists e, mkdir true true es d = Raise e.
Proof. apply mkdir_in_parents_fail. Qed.

Lemma write_file_in_cons whole c tl es content :
  tl <> [] ->
  write_file_in whole es (c :: tl) content
  = match assoc c es with
    | Some (Dir sub) =>
        sub' <- write_file_in whole sub tl content ;; Ok (update c (Dir sub') es)
    | Some (File _) => Raise (NotADirectoryError whole)
    | None => Raise (FileNotFoundError whole)
    end.
Proof. destruct tl; [contradiction | reflexivity]. Qed.

(** Writing a file in a directory that exists. *)
Lemma write_file_in_in_dir whole d : forall es c content,
  is_dir es d = true -> is_dir es (d ++ [c])%list = false ->
  exists es', write_file_in whole es (d ++ [c])%list content = Ok es'
              /\ lookup es' (d ++ [c])%list = Some (File content)
              /\ is_dir es' d = true
              /\ forall c', c' <> c ->
                   lookup es' (d ++ [c'])%list = lookup es (d ++ [c'])%list.
Proof.
  induction d as [|c0 rest IH]; intros es c content Hd Hc.
  - cbn [app write_file_in]. unfold is_dir in Hc. cbn in Hc.
    exists (update c (File content) es).
    assert (Hw : match assoc c es with
                 | Some (Dir _) => Raise (IsADirectoryError whole)
                 | _ => Ok (update c (File content) es)
                 end = Ok (update c (File content) es)).
    { destruct (assoc c es) as [[? | ?] |]; try reflexivity.
      cbn in Hc. discriminate. }
    split; [exact Hw |]. split; [rewrite lookup_update; reflexivity |].
    split; [reflexivity |]. intros c' Hne. now apply lookup_update_other.
  - apply is_dir_cons in Hd as (sub & Hsub & Hrest).
    assert (Hc' : is_dir sub (rest ++ [c])%list = false).
    { unfold is_dir in *. cbn in Hc. now rewrite Hsub in Hc. }
    destruct (IH sub c content Hrest Hc') as (sub' & Hw & Hl & Hd' & Hframe).
    exists (update c0 (Dir sub') es). rewrite <- !app_comm_cons.
    rewrite write_file_in_cons, Hsub, Hw by (destruct rest; discriminate).
    cbn [bind]. split; [reflexivity |].
    split; [now rewrite lookup_update |].
    split; [unfold is_dir; now rewrite lookup_update |].
    intros c' Hne. rewrite <- !app_comm_cons, lookup_update, (Hframe c' Hne).
    cbn. now rewrite Hsub.
Qed.

Lemma write_file_in_dir d es c content :
  is_dir es d = true -> is_dir es (d ++ [c])%list = false ->
  exists es', write_file es (d ++ [c])%list content = Ok es'
              /\ lookup es' (d ++ [c])%list = Some (File content)
              /\ is_dir es' d = true
              /\ forall c', c' <> c ->
                   lookup es' (d ++ [c'])%list = lookup es (d ++ [c'])%list.
Proof. apply write_file_in_in_dir. Qed.

Lemma write_file_in_on_dir whole d : forall es c content,
  is_dir es (d ++ [c])%list = true ->
  write_file_in whole es (d ++ [c])%list content = Raise (IsADirectoryError whole).
Proof.
  induction d as [|c0 rest IH]; intros es c content Hc.
  - cbn [app write_file_in]. apply is_dir_cons in Hc as (sub & Hsub & _).
    now rewrite Hsub.
  - rewrite <- app_comm_cons in *. apply is_dir_cons in Hc as (sub & Hsub & Hrest).
    rewrite write_file_in_cons, Hsub, (IH sub c content Hrest)
      by (destruct rest; discriminate).
    reflexivity.
Qed.

Lemma write_file_on_dir d es c content :
  is_dir es (d ++ [c])%list = true ->
  write_file es (d ++ [c])%list content
  = Raise (IsADirectoryError (path_str (d ++ [c])%list)).
Proof. apply write_file_in_on_dir. Qed.

(** ** The writer *)

Lemma flat_map_ext_In {A B} (f g : A -> list B) l :
  (forall a, In a l -> f a = g a) -> flat_map f l = flat_map g l.
Proof.
  induction l as [|a l IH]; intros H; cbn; [reflexivity |].
  rewrite (H a) by now left. f_equal. apply IH. intros b Hb. apply H. now right.
Qed.

Section WriterFacts.
Context {G : Type}.
Variable encode : format -> DataFrame -> result string.

Lemma bindM_ret_tt (m : M G unit) w : (m ;;; ret tt) w = m w.
Proof. unfold bindM, ret. now destruct (m w) as [[[] | e] w']. Qed.

Lemma with_suffix_target p f :
  name p <> "" -> with_suffix p (extension f) = Ok (target p f).
Proof.
  intros Hn. unfold with_suffix.
  destruct (String.eqb_spec (name p) ""); [contradiction |].
  now destruct f.
Qed.

Lemma bindM_cong {A B} (m : M G A) (k1 k2 : A -> M G B) w :
  (forall a w', k1 a w' = k2 a w') -> bindM m k1 w = bindM m k2 w.
Proof. intros H. unfold bindM. destruct (m w) as [[a | e] w']; [apply H | reflexivity]. Qed.

Lemma bindM_lift {A B} (r : result A) (k : A -> M G B) w :
  bindM (lift r) k w = match r with Ok a => k a w | Raise e => (Raise e, w) end.
Proof. reflexivity. Qed.

Lemma write_files_steps df p (w : world G) :
  name p <> "" ->
  write_files encode df p w
  = (Path_mkdir true true (parent p) ;;; for_eachM formats (attempt encode df p)) w.
Proof.
  intros Hn. unfold write_files. apply bindM_cong. intros _ w1.
  change (with_suffix p ".csv") with (with_suffix p (extension CSV)).
  change (with_suffix p ".json") with (with_suffix p (extension JSON)).
  change (with_suffix p ".parquet") with (with_suffix p (extension Parquet)).
  change (with_suffix p ".xlsx") with (with_suffix p (extension Excel)).
  rewrite bindM_lift, (with_suffix_target p CSV Hn).
  rewrite bindM_lift, (with_suffix_target p JSON Hn).
  rewrite bindM_lift, (with_suffix_target p Parquet Hn).
  rewrite bindM_lift, (with_suffix_target p Excel Hn).
  unfold formats. cbn [for_eachM].
  apply (bindM_cong (attempt encode df p CSV)). intros _ w2.
  apply (bindM_cong (attempt encode df p JSON)). intros _ w3.
  apply (bindM_cong (attempt encode df p Parquet)). intros _ w4.
  symmetry. apply bindM_ret_tt.
Qed.

Lemma attempt_run df p f (w : world G) :
  is_dir (files w) (parent p) = true ->
  exists w',
    attempt encode df p f w = (Ok tt, w')
    /\ globals w' = globals w
    /\ trace w' = (trace w ++ attempt_events encode (files w) df p f)%list
    /\ is_dir (files w') (parent p) = true
    /\ (forall c, c <> stem (name p) ++ extension f ->
          lookup (files w') (joinpath (parent p) c)
          = lookup (files w) (joinpath (parent p) c))
    /\ match failure encode (files w) f df (target p f) with
       | None => exists content,
                   encode f df = Ok content
                   /\ lookup (files w') (target p f) = Some (File content)
       | Some _ => files w' = files w
       end.
Proof.
  intros Hd.
  unfold attempt, attempt_events, try_except, bindM, export, export_result, failure.
  cbn [files log]. destruct (encode f df) as [content | e]; cbn [bind].
  - destruct (is_dir (files w) (target p f)) eqn:Et.
    + unfold target, joinpath in *. rewrite write_file_on_dir by exact Et.
      eexists. split; [reflexivity |]. cbn. rewrite <- app_assoc.
      repeat split; auto.
    + unfold target, joinpath in *.
      destruct (write_file_in_dir _ _ _ content Hd Et) as (es' & Hw & Hl & Hd' & Hfr).
      rewrite Hw. eexists. split; [reflexivity |]. cbn. rewrite <- app_assoc.
      repeat split; auto. now exists content.
  - eexists. split; [reflexivity |]. cbn. rewrite <- app_assoc.
    repeat split; auto.
Qed.

Lemma failure_ext es1 es2 f df t :
  lookup es1 t = lookup es2 t ->
  failure encode es1 f df t = failure encode es2 f df t.
Proof. intros H. unfold failure, is_dir. now rewrite H. Qed.

Lemma append_inj s a b : s ++ a = s ++ b -> a = b.
Proof. induction s as [|c s IH]; cbn; [auto |]. intros [= H]. auto. Qed.

Lemma target_name_inj s f g : s ++ extension f = s ++ extension g -> f = g.
Proof. intros H. apply append_inj in H. destruct f, g; (reflexivity || discriminate). Qed.

(** The attempts for a list of distinct formats, in a directory that
    exists: every one runs, none raises, and each leaves the files of the
    others alone. *)
Lemma attempts_run df p fs : NoDup fs -> forall w : world G,
  is_dir (files w) (parent p) = true ->
  exists w',
    for_eachM fs (attempt encode df p) w = (Ok tt, w')
    /\ globals w' = globals w
    /\ trace w' = (trace w ++ flat_map (attempt_events encode (files w) df p) fs)%list
    /\ is_dir (files w') (parent p) = true
    /\ (forall c, (forall f, In f fs -> c <> stem (name p) ++ extension f) ->
          lookup (files w') (joinpath (parent p) c)
          = lookup (files w) (joinpath (parent p) c))
    /\ (forall f, In f fs ->
          match failure encode (files w) f df (target p f) with
          | None => exists content,
                      encode f df = Ok content
                      /\ lookup (files w') (target p f) = Some (File content)
          | Some _ => lookup (files w') (target p f) = lookup (files w) (target p f)
          end).
Proof.
  induction 1 as [|f fs Hnotin Hnd IH]; intros w Hd.
  - exists w. cbn. rewrite app_nil_r. repeat split; auto. contradiction.
  - destruct (attempt_run df p f w Hd) as (w1 & Hrun & Hg1 & Ht1 & Hd1 & Hfr1 & Hf1).
    destruct (IH w1 Hd1) as (w' & Hrun' & Hg' & Ht' & Hd' & Hfr' & Hf').
    assert (Hother : forall g, In g fs ->
              lookup (files w1) (target p g) = lookup (files w) (target p g)).
    { intros g Hg. apply Hfr1. intros E. apply target_name_inj in E. now subst. }
    exists w'. cbn [for_eachM]. unfold bindM at 1. rewrite Hrun.
    split; [exact Hrun' |]. split; [congruence |]. split.
    { rewrite Ht', Ht1, <- app_assoc. cbn [flat_map]. do 2 f_equal.
      apply flat_map_ext_In. intros g Hg. unfold attempt_events.
      now rewrite (failure_ext _ _ _ _ _ (Hother g Hg)). }
    split; [exact Hd' |]. split.
    { intros c Hc. rewrite Hfr', Hfr1; [reflexivity | |].
      - apply Hc. now left.
      - intros g Hg. apply Hc. now right. }
    intros g [<- | Hg].
    + assert (Hkeep : lookup (files w') (target p f) = lookup (files w1) (target p f)).
      { apply Hfr'. intros g Hg E. apply target_name_inj in E. now subst. }
      rewrite Hkeep. destruct (failure encode (files w) f df (target p f)).
      * now rewrite Hf1.
      * exact Hf1.
    + specialize (Hf' g Hg).
      rewrite (failure_ext _ _ _ _ _ (Hother g Hg)) in Hf'.
      destruct (failure encode (files w) g df (target p g)); [| exact Hf'].
      now rewrite Hf', Hother.
Qed.

Lemma NoDup_formats : NoDup formats.
Proof.
  unfold formats. repeat constructor; cbn; intuition discriminate.
Qed.

(** The whole of [write_files] when the path has a name and its directory
    can be created. *)
Lemma write_files_run df p (w : world G) :
  name p <> "" -> creatable (files w) (parent p) = true ->
  exists w',
    write_files encode df p w = (Ok tt, w')
    /\ globals w' = globals w
    /\ trace w' = (trace w ++ Mkdir (parent p)
                     :: flat_map (attempt_events encode (files w) df p) formats)%list
    /\ is_dir (files w') (parent p) = true
    /\ (forall c, (forall f, c <> stem (name p) ++ extension f) ->
          lookup (files w') (joinpath (parent p) c)
          = lookup (files w) (joinpath (parent p) c))
    /\ (forall f,
          match failure encode (files w) f df (target p f) with
          | None => exists content,
                      encode f df = Ok content
                      /\ lookup (files w') (target p f) = Some (File content)
          | Some _ => lookup (files w') (target p f) = lookup (files w) (target p f)
          end).
Proof.
  intros Hn Hc. rewrite write_files_steps by exact Hn.
  destruct (mkdir_parents_ok _ _ Hc) as (es0 & Hm & Hd0 & Hl0).
  unfold bindM at 1, Path_mkdir. cbn [files log]. rewrite Hm.
  set (w0 := set_files es0 (log (Mkdir (parent p)) w)).
  destruct (attempts_run df p formats NoDup_formats w0 Hd0)
    as (w' & Hrun & Hg & Ht & Hd & Hfr & Hf).
  assert (Hall : forall f, In f formats) by (intros []; cbn; auto).
  exists w'. split; [exact Hrun |]. split; [exact Hg |]. split.
  { rewrite Ht. cbn [trace w0 set_files log]. rewrite <- app_assoc. cbn [app].
    do 2 f_equal. apply flat_map_ext. intros f. unfold attempt_events.
    now rewrite (failure_ext (files w0) (files w) f df (target p f) (Hl0 _)). }
  split; [exact Hd |]. split.
  { intros c Hcn. rewrite Hfr by auto. apply Hl0. }
  intros f. specialize (Hf f (Hall f)).
  rewrite (failure_ext (files w0) (files w) f df (target p f) (Hl0 _)) in Hf.
  destruct (failure encode (files w) f df (target p f)); [| exact Hf].
  rewrite Hf. apply Hl0.
Qed.

End WriterFacts.

Section Blocked.
Context {G : Type}.
Variable encode : format -> DataFrame -> result string.

(** When a regular file is in the way of the directory, [write_files] raises
    the error of [mkdir] and attempts no export. *)
Lemma write_files_blocked df p (w : world G) :
  creatable (files w) (parent p) = false ->
  exists e, write_files encode df p w = (Raise e, log (Mkdir (parent p)) w).
Proof.
  intros Hc. destruct (mkdir_parents_fail _ _ Hc) as (e & He).
  exists e. unfold write_files, bindM at 1, Path_mkdir. cbn [files log].
  now rewrite He.
Qed.

(** A path without a name ([Path('/')], [Path('.')]) stops [write_files]
    at [with_suffix], after the directory and before the first export. *)
Lemma write_files_unnamed df p (w : world G) :
  name p = "" -> creatable (files w) (parent p) = true ->
  exists e w', write_files encode df p w = (Raise e, w')
               /\ trace w' = (trace w ++ [Mkdir (parent p)])%list.
Proof.
  intros Hn Hc. destruct (mkdir_parents_ok _ _ Hc) as (es0 & Hm & _).
  unfold write_files, bindM at 1, Path_mkdir. cbn [files log]. rewrite Hm.
  rewrite bindM_lift. unfold with_suffix. rewrite Hn. cbn [String.eqb].
  eexists _, _. split; reflexivity.
Qed.

End Blocked.

Lemma exports_app t1 t2 : exports (t1 ++ t2) = (exports t1 ++ exports t2)%list.
Proof. apply flat_map_app. Qed.

Lemma stderr_app t1 t2 : stderr (t1 ++ t2) = (stderr t1 ++ stderr t2)%list.
Proof. apply flat_map_app. Qed.


Lemma In_stderr s t : In (Stderr s) t -> In s (stderr t).
Proof. intros H. unfold stderr. apply in_flat_map. exists (Stderr s). cbn. auto. Qed.

Lemma lookup_child_absent d : forall es c,
  lookup es d = None -> lookup es (d ++ [c])%list = None.
Proof.
  induction d as [|c0 rest IH]; intros es c H; [discriminate |].
  rewrite <- app_comm_cons. cbn in *.
  destruct (assoc c0 es) as [[content | sub] |]; [| now apply IH | reflexivity].
  now destruct rest.
Qed.

Section WriterClaims.
Context {G : Type}.
Variable encode : format -> DataFrame -> result string.

Lemma exports_attempts es df p fs :
  exports (flat_map (attempt_events encode es df p) fs)
  = map (fun f => (f, target p f)) fs.
Proof.
  induction fs as [|f fs IH]; [reflexivity |].
  cbn [flat_map map]. unfold exports in *. rewrite flat_map_app, IH.
  unfold attempt_events, report. cbn.
  now destruct (failure encode es f df (target p f)).
Qed.

Lemma report_logged es df p f :
  In (report f (target p f) (failure encode es f df (target p f)))
     (flat_map (attempt_events encode es df p) formats).
Proof.
  apply in_flat_map. exists f. split; [destruct f; cbn; auto |].
  unfold attempt_events. cbn. auto.
Qed.


(** C8.  For every table, [write_files] makes exactly four export attempts,
    one per format, in the order CSV, JSON, Parquet, Excel, and then returns
    normally, whatever the outcome of each attempt. *)
Theorem write_files_attempts_in_order df p (w : world G) :
  name p <> "" -> creatable (files w) (parent p) = true ->
  exists w' evs,
    write_files encode df p w = (Ok tt, w')
    /\ trace w' = (trace w ++ evs)%list
    /\ exports evs = [(CSV, target p CSV); (JSON, target p JSON);
                      (Parquet, target p Parquet); (Excel, target p Excel)].
Proof.
  intros Hn Hc.
  destruct (write_files_run encode df p w Hn Hc) as (w' & Hrun & _ & Ht & _).
  exists w', (Mkdir (parent p)
              :: flat_map (attempt_events encode (files w) df p) formats).
  split; [exact Hrun |]. split; [exact Ht |].
  apply (exports_attempts (files w) df p formats).
Qed.

(** [write_files] creates the directory of the path stem first: the
    creation is the first event of the call, and the directory and all its
    ancestors exist afterwards.  For a path stem with a name the four
    exports follow, and when the directory did not exist before, every
    export whose encoder succeeds leaves its file in it. *)
Lemma write_files_directory df p (w : world G) :
  creatable (files w) (parent p) = true ->
  exists r w' evs,
    write_files encode df p w = (r, w')
    /\ trace w' = (trace w ++ Mkdir (parent p) :: evs)%list
    /\ (forall k, is_dir (files w') (firstn k (parent p)) = true)
    /\ (name p <> "" ->
        r = Ok tt
        /\ exports evs = [(CSV, target p CSV); (JSON, target p JSON);
                          (Parquet, target p Parquet); (Excel, target p Excel)]
        /\ (lookup (files w) (parent p) = None ->
            forall f content, encode f df = Ok content ->
              lookup (files w') (target p f) = Some (File content))).
Proof.
  intros Hc.
  assert (Hpre : forall es, is_dir es (parent p) = true ->
                   forall k, is_dir es (firstn k (parent p)) = true).
  { intros es Hd k. apply (is_dir_prefix _ _ (skipn k (parent p))).
    now rewrite firstn_skipn. }
  destruct (String.eqb_spec (name p) "") as [Hn | Hn].
  - destruct (mkdir_parents_ok _ _ Hc) as (es0 & Hm & Hd & _).
    unfold write_files, bindM at 1, Path_mkdir. cbn [files log]. rewrite Hm.
    rewrite bindM_lift. unfold with_suffix. rewrite Hn. cbn [String.eqb].
    eexists _, _, []. split; [reflexivity |]. split; [reflexivity |].
    split; [exact (Hpre _ Hd) | contradiction].
  - destruct (write_files_run encode df p w Hn Hc)
      as (w' & Hrun & _ & Ht & Hd & _ & Hf).
    exists (Ok tt), w', (flat_map (attempt_events encode (files w) df p) formats).
    split; [exact Hrun |]. split; [exact Ht |]. split; [exact (Hpre _ Hd) |].
    intros _. split; [reflexivity |]. split; [apply exports_attempts |].
    intros Habs f content He. specialize (Hf f). unfold failure, is_dir in Hf.
    unfold target, joinpath in *.
    rewrite He, (lookup_child_absent _ _ _ Habs) in Hf.
    now destruct Hf as (content' & [= <-] & Hl).
Qed.

End WriterClaims.

(** ** The script of create_test_samples.py *)

Lemma is_anchor_joinpath d c : c <> "/" -> is_anchor (joinpath d c) = false.
Proof.
  intros Hc. unfold joinpath. destruct d as [|x [|y d]]; cbn; try reflexivity.
  now destruct (String.eqb_spec c "/").
Qed.

Lemma parent_joinpath d c : c <> "/" -> parent (joinpath d c) = d.
Proof.
  intros Hc. unfold parent. rewrite is_anchor_joinpath by exact Hc.
  apply removelast_last.
Qed.

Lemma name_joinpath d c : c <> "/" -> name (joinpath d c) = c.
Proof.
  intros Hc. unfold name. rewrite is_anchor_joinpath by exact Hc.
  apply last_last.
Qed.

Section ScriptFacts.
Variable encode : format -> DataFrame -> result string.

Lemma target_sample args f :
  target (sample_path args) f = joinpath (base_dir args) ("sample" ++ extension f).
Proof.
  unfold target, sample_path.
  rewrite parent_joinpath, name_joinpath by discriminate. reflexivity.
Qed.

Lemma target_sample2 args f :
  target (sample2_path args) f = joinpath (base_dir args) ("sample2" ++ extension f).
Proof.
  unfold target, sample2_path.
  rewrite parent_joinpath, name_joinpath by discriminate. reflexivity.
Qed.

Lemma sample_names_differ f g : "sample2" ++ extension g <> "sample" ++ extension f.
Proof. destruct f, g; discriminate. Qed.

Lemma main_run args (w : world date) :
  date_valid (globals w) ->
  sample_rows args < toordinal (globals w) ->
  sample2_rows args < toordinal (globals w) ->
  creatable (files w) (base_dir args) = true ->
  exists df1 df2 w',
    generate_data (globals w) "sample" (sample_rows args) = Ok df1
    /\ generate_data (globals w) "sample2" (sample2_rows args) = Ok df2
    /\ main encode args w = (Ok tt, w')
    /\ trace w'
       = (trace w
          ++ (Mkdir (base_dir args)
              :: flat_map (attempt_events encode (files w) df1 (sample_path args)) formats)
          ++ (Mkdir (base_dir args)
              :: flat_map (attempt_events encode (files w) df2 (sample2_path args)) formats))%list
    /\ is_dir (files w') (base_dir args) = true
    /\ (forall f content, encode f df1 = Ok content ->
          is_dir (files w) (target (sample_path args) f) = false ->
          lookup (files w') (target (sample_path args) f) = Some (File content))
    /\ (forall f content, encode f df2 = Ok content ->
          is_dir (files w) (target (sample2_path args) f) = false ->
          lookup (files w') (target (sample2_path args) f) = Some (File content)).
Proof.
  intros Hv H1 H2 Hc.
  pose proof (generate_data_ok (globals w) "sample" _ Hv H1) as E1.
  pose proof (generate_data_ok (globals w) "sample2" _ Hv H2) as E2.
  set (df1 := DataFrame_of_records _) in E1.
  set (df2 := DataFrame_of_records _) in E2.
  assert (Hp1 : parent (sample_path args) = base_dir args)
    by (apply parent_joinpath; discriminate).
  assert (Hp2 : parent (sample2_path args) = base_dir args)
    by (apply parent_joinpath; discriminate).
  assert (Hn1 : name (sample_path args) <> "")
    by (unfold sample_path; rewrite name_joinpath; discriminate).
  assert (Hn2 : name (sample2_path args) <> "")
    by (unfold sample2_path; rewrite name_joinpath; discriminate).
  destruct (write_files_run encode df1 (sample_path args) w Hn1)
    as (w1 & Hrun1 & Hg1 & Ht1 & Hd1 & Hfr1 & Hf1); [now rewrite Hp1 |].
  destruct (write_files_run encode df2 (sample2_path args) w1 Hn2)
    as (w2 & Hrun2 & Hg2 & Ht2 & Hd2 & Hfr2 & Hf2).
  { rewrite Hp2. apply is_dir_creatable. now rewrite <- Hp1. }
  assert (Hsame : forall g, lookup (files w1) (target (sample2_path args) g)
                            = lookup (files w) (target (sample2_path args) g)).
  { intros g. rewrite target_sample2, <- Hp1. apply Hfr1. intros f.
    unfold sample_path. rewrite name_joinpath by discriminate.
    apply sample_names_differ. }
  exists df1, df2, w2. split; [exact E1 |]. split; [exact E2 |]. split.
  { unfold main. cbn [for_eachM].
    unfold bindM at 1 2 3, get_globals, lift. rewrite E1.
    fold (sample_path args). rewrite Hrun1.
    unfold bindM at 1 2 3, get_globals, lift. rewrite Hg1, E2.
    fold (sample2_path args). rewrite Hrun2. reflexivity. }
  split.
  { rewrite Ht2, Ht1, Hp1, Hp2, <- app_assoc. do 3 f_equal.
    apply flat_map_ext. intros g. unfold attempt_events.
    now rewrite (failure_ext encode _ _ g df2 _ (Hsame g)). }
  split; [now rewrite <- Hp2 |]. split.
  - intros f content He Hdir. specialize (Hf1 f). unfold failure in Hf1.
    rewrite He, Hdir in Hf1. destruct Hf1 as (content' & [= <-] & Hl).
    rewrite <- Hl, target_sample, <- Hp2. apply Hfr2. intros g.
    unfold sample2_path. rewrite name_joinpath by discriminate.
    intros E. symmetry in E. revert E. apply sample_names_differ.
  - intros f content He Hdir. specialize (Hf2 f). unfold failure in Hf2.
    unfold is_dir in Hf2, Hdir. rewrite He, Hsame, Hdir in Hf2.
    now destruct Hf2 as (content' & [= <-] & Hl).
Qed.

End ScriptFacts.

(** ** create_test_data.py *)

Section NumpyFacts.
Variable rng_state : Type.
Variable seed_state : Z -> rng_state.
Variable bounded : Z -> rng_state -> Z * rng_state.

(** The contract of a bounded draw: a value of the range asked for. *)
Hypothesis bounded_range :
  forall rng st, 0 <= rng -> 0 <= fst (bounded rng st) <= rng.

Lemma draws_length rng n st : List.length (fst (draws bounded rng n st)) = n.
Proof.
  revert st. induction n as [|n IH]; intros st; cbn; [reflexivity |].
  destruct (bounded rng st) as [x st1]. specialize (IH st1).
  destruct (draws bounded rng n st1) as [xs st2]. cbn in *. now rewrite IH.
Qed.

Lemma draws_range rng n st :
  0 <= rng -> Forall (fun x => 0 <= x <= rng) (fst (draws bounded rng n st)).
Proof.
  intros Hr. revert st. induction n as [|n IH]; intros st; cbn; [constructor |].
  pose proof (bounded_range rng st Hr) as Hb.
  destruct (bounded rng st) as [x st1]. specialize (IH st1).
  destruct (draws bounded rng n st1) as [xs st2]. cbn in *. now constructor.
Qed.

Lemma randint_run low high size (w : world rng_state) :
  low < high -> 0 <= size ->
  exists xs w',
    randint bounded low high size w = (Ok xs, w')
    /\ files w' = files w /\ trace w' = trace w
    /\ List.length xs = Z.to_nat size
    /\ Forall (fun x => low <= x < high) xs.
Proof.
  intros H Hs. unfold randint. destruct (Z.leb_spec high low); [lia |].
  destruct (Z.ltb_spec size 0); [lia |].
  pose proof (draws_length (high - low - 1) (Z.to_nat size) (globals w)) as Hl.
  pose proof (draws_range (high - low - 1) (Z.to_nat size) (globals w)) as Hr.
  destruct (draws bounded (high - low - 1) (Z.to_nat size) (globals w)) as [xs st].
  cbn [fst snd] in *. exists (map (Z.add low) xs), (set_globals st w).
  split; [reflexivity |]. split; [reflexivity |]. split; [reflexivity |].
  split; [now rewrite length_map |].
  apply Forall_map. eapply Forall_impl; [| apply Hr; lia]. cbn. lia.
Qed.

Lemma take_ok {A} (a : list A) idx :
  Forall (fun i => 0 <= i < Z.of_nat (List.length a)) idx ->
  exists ys, take a idx = Ok ys
             /\ List.length ys = List.length idx
             /\ Forall (fun y => In y a) ys.
Proof.
  induction 1 as [|i idx Hi _ IH]; cbn [take].
  - exists []. repeat split. constructor.
  - destruct IH as (ys & Hys & Hl & Hin). unfold list_getitem.
    destruct (nth_error a (Z.to_nat i)) as [x |] eqn:E.
    + rewrite Hys. exists (x :: ys). cbn. repeat split; [now rewrite Hl |].
      constructor; [eapply nth_error_In; eassumption | assumption].
    + apply nth_error_None in E. lia.
Qed.

Lemma choice_run {A} (a : list A) size (w : world rng_state) :
  a <> [] -> 0 <= size ->
  exists ys w',
    choice bounded a size w = (Ok ys, w')
    /\ files w' = files w /\ trace w' = trace w
    /\ List.length ys = Z.to_nat size
    /\ Forall (fun y => In y a) ys.
Proof.
  intros Ha Hs. unfold choice. destruct a as [|a0 a']; [contradiction |].
  set (a := a0 :: a') in *.
  destruct (randint_run 0 (Z.of_nat (List.length a)) size w)
    as (idx & w' & Hrun & Hf & Ht & Hl & Hr); [cbn; lia | exact Hs |].
  destruct (take_ok a idx Hr) as (ys & Hys & Hly & Hin).
  exists ys, w'. unfold bindM. rewrite Hrun. unfold lift. rewrite Hys.
  repeat split; [assumption | assumption | congruence | assumption].
Qed.

Lemma bindM_run {A B} (m : M rng_state A) (k : A -> M rng_state B) w a w' :
  m w = (Ok a, w') -> bindM m k w = k a w'.
Proof. intros H. unfold bindM. now rewrite H. Qed.

(** The frame of a run: 1000 rows, the fourteen columns, and the integer
    columns within the bounds asked of [randint]. *)
Lemma test_data_frame_run (w : world rng_state) :
  exists df w',
    test_data_frame seed_state bounded w = (Ok df, w')
    /\ files w' = files w /\ trace w' = trace w
    /\ nrows df = 1000%nat
    /\ columns df = test_data_columns
    /\ Forall (fun c => List.length (snd c) = 1000%nat) (cols df)
    /\ (exists rating, column "overall_rating" (cols df) = Some (map VInt rating)
                       /\ List.length rating = 1000%nat
                       /\ Forall (fun x => 1 <= x < 6) rating)
    /\ (exists duration, column "duration" (cols df) = Some (map VInt duration)
                         /\ List.length duration = 1000%nat
                         /\ Forall (fun x => 1 <= x < 365) duration)
    /\ (exists age, column "age" (cols df) = Some (map VInt age)
                    /\ List.length age = 1000%nat
                    /\ Forall (fun x => 18 <= x < 80) age).
Proof.
  assert (Hsize : 0 <= n_rows) by (unfold n_rows; lia).
  set (w0 := set_globals (seed_state 42) w).
  destruct (choice_run ["source_A"; "source_B"; "source_C"] n_rows w0)
    as (source & w1 & R1 & F1 & T1 & L1 & _); [discriminate | exact Hsize |].
  destruct (randint_run 1 6 n_rows w1) as (rating & w2 & R2 & F2 & T2 & L2 & B2); [lia | exact Hsize |].
  destruct (choice_run ["condition_1"; "condition_2"; "condition_3"] n_rows w2)
    as (condition & w3 & R3 & F3 & T3 & L3 & _); [discriminate | exact Hsize |].
  destruct (choice_run ["M"; "F"] n_rows w3)
    as (sex & w4 & R4 & F4 & T4 & L4 & _); [discriminate | exact Hsize |].
  destruct (randint_run 1 365 n_rows w4) as (duration & w5 & R5 & F5 & T5 & L5 & B5); [lia | exact Hsize |].
  destruct (randint_run 18 80 n_rows w5) as (age & w6 & R6 & F6 & T6 & L6 & B6); [lia | exact Hsize |].
  destruct (choice_run ["type_A"; "type_B"] n_rows w6)
    as (ptype & w7 & R7 & F7 & T7 & L7 & _); [discriminate | exact Hsize |].
  destruct (choice_run ["INN_1"; "INN_2"; "INN_3"] n_rows w7)
    as (inn & w8 & R8 & F8 & T8 & L8 & _); [discriminate | exact Hsize |].
  destruct (choice_run ["positive"; "negative"; "neutral"] n_rows w8)
    as (prediction & w9 & R9 & F9 & T9 & L9 & _); [discriminate | exact Hsize |].
  destruct (randint_run 0 3 n_rows w9) as (plabel & w10 & R10 & F10 & T10 & L10 & _); [lia | exact Hsize |].
  assert (Hn : Z.to_nat n_rows = 1000%nat) by reflexivity.
  assert (Hrange : List.length (range 0 n_rows) = 1000%nat)
    by (now rewrite range_length).
  assert (Hdate : List.length (firstn (Z.to_nat n_rows)
                                 (date_range date_2023_01_01 n_rows)) = 1000%nat).
  { rewrite length_firstn. unfold date_range. rewrite length_map, Hrange, Hn.
    reflexivity. }
  rewrite Hn in L1, L2, L3, L4, L5, L6, L7, L8, L9, L10.
  eexists. exists w10. split.
  { unfold test_data_frame.
    rewrite (bindM_run (np_random_seed seed_state 42) _ w tt w0 eq_refl).
    rewrite (bindM_run _ _ _ _ _ R1). cbv beta zeta.
    rewrite (bindM_run _ _ _ _ _ R2), (bindM_run _ _ _ _ _ R3). cbv beta zeta.
    rewrite (bindM_run _ _ _ _ _ R4), (bindM_run _ _ _ _ _ R5). cbv beta zeta.
    rewrite (bindM_run _ _ _ _ _ R6). cbv beta zeta.
    rewrite (bindM_run _ _ _ _ _ R7), (bindM_run _ _ _ _ _ R8).
    rewrite (bindM_run _ _ _ _ _ R9), (bindM_run _ _ _ _ _ R10).
    unfold lift, DataFrame_of_columns. cbn [forallb]. unfold same_length. cbn [snd].
    rewrite !length_map, L1, L2, L3, L4, L5, L6, L7, L8, L9, L10, Hrange, Hdate.
    reflexivity. }
  assert (F0 : files w0 = files w) by reflexivity.
  assert (T0 : trace w0 = trace w) by reflexivity.
  split; [congruence |]. split; [congruence |].
  split; [reflexivity |]. split; [reflexivity |]. split.
  { cbn [cols]. repeat constructor; cbn [snd]; rewrite length_map; assumption. }
  split; [exists rating; repeat split; assumption |].
  split; [exists duration; repeat split; assumption |].
  exists age; repeat split; assumption.
Qed.

(** ** Two runs *)

Lemma rng_only_lift {A} (r : result A) : rng_only (lift r : M rng_state A).
Proof. intros w1 w2 H. now split. Qed.

Lemma rng_only_bind {A B} (m : M rng_state A) (k : A -> M rng_state B) :
  rng_only m -> (forall a, rng_only (k a)) -> rng_only (bindM m k).
Proof.
  intros Hm Hk w1 w2 H. unfold bindM. destruct (Hm w1 w2 H) as [E1 E2].
  destruct (m w1) as [[a1 | e1] w1'], (m w2) as [[a2 | e2] w2'];
    cbn in E1, E2; try discriminate.
  - injection E1 as ->. exact (Hk a2 _ _ E2).
  - injection E1 as ->. now split.
Qed.

Lemma rng_only_randint low high size : rng_only (randint bounded low high size).
Proof.
  intros w1 w2 H. unfold randint, raise.
  destruct (high <=? low); [now split |].
  destruct (size <? 0); [now split |]. rewrite H.
  now destruct (draws bounded (high - low - 1) (Z.to_nat size) (globals w2)).
Qed.

Lemma rng_only_choice {A} (a : list A) size : rng_only (choice bounded a size).
Proof.
  unfold choice. destruct a as [|a0 a'].
  - intros w1 w2 H. now split.
  - apply rng_only_bind; [apply rng_only_randint | intros idx; apply rng_only_lift].
Qed.

(** After the seed the generator state is the same in every world, so the
    frame is the same. *)
Lemma test_data_frame_same (w1 w2 : world rng_state) :
  fst (test_data_frame seed_state bounded w1)
  = fst (test_data_frame seed_state bounded w2).
Proof.
  unfold test_data_frame.
  rewrite (bindM_run (np_random_seed seed_state 42) _ w1 tt _ eq_refl).
  rewrite (bindM_run (np_random_seed seed_state 42) _ w2 tt _ eq_refl).
  cbv beta zeta.
  match goal with
  | |- fst (?m _) = fst (?m _) => assert (Hm : rng_only m)
  end.
  { repeat (apply rng_only_bind;
            [first [apply rng_only_choice | apply rng_only_randint] | intros ?]).
    apply rng_only_lift. }
  now apply Hm.
Qed.

Lemma int_column_cell (P : Z -> Prop) df c xs i :
  column c (cols df) = Some (map VInt xs) ->
  Forall P xs -> (i < List.length xs)%nat ->
  exists x, cell df c i = Some (VInt x) /\ P x.
Proof.
  intros Hc HP Hi. unfold cell. rewrite Hc, nth_error_map.
  destruct (nth_error xs i) as [x |] eqn:E.
  - exists x. split; [reflexivity |].
    eapply Forall_forall; [exact HP | eapply nth_error_In; exact E].
  - apply nth_error_None in E. lia.
Qed.

(** C4.  In the table of [create_test_data], in every row,
    [overall_rating] lies in [1..5], [age] in [18..80] and [duration] in
    [1..365].  (The bounds of [randint] exclude the upper end, so that [age]
    stays below 80 and [duration] below 365.) *)
Theorem test_data_bounds (w : world rng_state) :
  exists df,
    fst (test_data_frame seed_state bounded w) = Ok df
    /\ forall i, (i < 1000)%nat ->
         exists rating age duration,
           cell df "overall_rating" i = Some (VInt rating) /\ 1 <= rating <= 5
           /\ cell df "age" i = Some (VInt age) /\ 18 <= age <= 80
           /\ cell df "duration" i = Some (VInt duration) /\ 1 <= duration <= 365.
Proof.
  destruct (test_data_frame_run w)
    as (df & w' & Hrun & _ & _ & _ & _ & _ & Hr & Hd & Ha).
  exists df. split; [now rewrite Hrun |]. intros i Hi.
  destruct Hr as (rating & Cr & Lr & Br), Hd as (duration & Cd & Ld & Bd),
           Ha as (age & Ca & La & Ba).
  destruct (int_column_cell _ df _ _ i Cr Br) as (r & Er & Pr); [lia |].
  destruct (int_column_cell _ df _ _ i Ca Ba) as (a & Ea & Pa); [lia |].
  destruct (int_column_cell _ df _ _ i Cd Bd) as (d & Ed & Pd); [lia |].
  exists r, a, d. repeat split; (assumption || lia).
Qed.

(** The upper ends are excluded: [age] stops at 79 and [duration] at 364. *)
Lemma test_data_bounds_exclusive (w : world rng_state) :
  exists df,
    fst (test_data_frame seed_state bounded w) = Ok df
    /\ forall i, (i < 1000)%nat ->
         exists age duration,
           cell df "age" i = Some (VInt age) /\ age <= 79
           /\ cell df "duration" i = Some (VInt duration) /\ duration <= 364.
Proof.
  destruct (test_data_frame_run w)
    as (df & w' & Hrun & _ & _ & _ & _ & _ & _ & Hd & Ha).
  exists df. split; [now rewrite Hrun |]. intros i Hi.
  destruct Hd as (duration & Cd & Ld & Bd), Ha as (age & Ca & La & Ba).
  destruct (int_column_cell _ df _ _ i Ca Ba) as (a & Ea & Pa); [lia |].
  destruct (int_column_cell _ df _ _ i Cd Bd) as (d & Ed & Pd); [lia |].
  exists a, d. repeat split; (assumption || lia).
Qed.

(** C7.  Two runs of [create_test_data], whatever the state of the process
    each starts in, build the same table: the seed 42 is installed first and
    nothing else of the world is read. *)
Theorem test_data_deterministic (w1 w2 : world rng_state) :
  exists df,
    fst (test_data_frame seed_state bounded w1) = Ok df
    /\ fst (test_data_frame seed_state bounded w2) = Ok df.
Proof.
  destruct (test_data_frame_run w1) as (df & w' & Hrun & _).
  exists df. rewrite (test_data_frame_same w2 w1), Hrun. now split.
Qed.

(** ** The script *)

Variable encode : format -> DataFrame -> result string.

Lemma mkdir_output_dir es :
  creatable es output_dir = true ->
  exists es1, mkdir false true es output_dir = Ok es1
              /\ is_dir es1 output_dir = true.
Proof.
  unfold output_dir. cbn. destruct (assoc "test_data" es) as [[content | sub] |] eqn:E.
  - discriminate.
  - intros _. eexists. split; [reflexivity |].
    unfold is_dir. now rewrite lookup_update.
  - intros _. eexists. split; [reflexivity |].
    unfold is_dir. now rewrite lookup_update.
Qed.

Lemma export_keeps_dir f df d c es es' :
  is_dir es d = true ->
  export_result encode f df (d ++ [c])%list es = Ok es' ->
  is_dir es' d = true.
Proof.
  intros Hd. unfold export_result. destruct (encode f df) as [content | e]; [| discriminate].
  cbn [bind]. destruct (is_dir es (d ++ [c])%list) eqn:Et.
  - now rewrite write_file_on_dir.
  - destruct (write_file_in_dir d es c content Hd Et) as (es2 & Hw & _ & Hd2 & _).
    rewrite Hw. now intros [= <-].
Qed.

Lemma print_columns_run (cs : list (string * list value)) (w : world rng_state) :
  for_eachM cs (fun '(col, vs) => print ("  " ++ col ++ ": " ++ dtype vs)) w
  = (Ok tt,
     mk_world (globals w) (files w)
       (trace w ++ map (fun '(col, vs) => Stdout ("  " ++ col ++ ": " ++ dtype vs)) cs)).
Proof.
  revert w. induction cs as [|[col vs] cs IH]; intros w.
  - cbn. rewrite app_nil_r. now destruct w.
  - cbn [for_eachM map]. unfold bindM, print at 1. rewrite IH. cbn.
    now rewrite <- app_assoc.
Qed.

Lemma exports_column_lines (cs : list (string * list value)) :
  exports (map (fun '(col, vs) => Stdout ("  " ++ col ++ ": " ++ dtype vs)) cs) = [].
Proof. induction cs as [|[col vs] cs IH]; [reflexivity | exact IH]. Qed.

(** A run of [create_test_data] in a world where [test_data] is not a regular
    file: the directory is made, then the one Parquet export is attempted,
    then come the prints. *)
Lemma create_test_data_run (w : world rng_state) :
  creatable (files w) output_dir = true ->
  exists df r w' evs,
    fst (test_data_frame seed_state bounded w) = Ok df
    /\ create_test_data seed_state bounded encode w = (r, w')
    /\ trace w' = (trace w ++ Mkdir output_dir :: Export Parquet output_file df :: evs)%list
    /\ exports evs = []
    /\ is_dir (files w') output_dir = true.
Proof.
  intros Hc.
  destruct (test_data_frame_run w) as (df & w1 & Hrun & F1 & T1 & _).
  rewrite <- F1 in Hc. destruct (mkdir_output_dir _ Hc) as (es1 & Hm & Hd).
  exists df. unfold create_test_data. rewrite (bindM_run _ _ _ _ _ Hrun).
  cbv beta zeta. fold output_dir.
  change (joinpath output_dir "test_reviews.parquet") with output_file.
  unfold bindM at 1, Path_mkdir. cbn [files log]. rewrite Hm.
  unfold bindM at 1, export. cbn [files log set_files trace].
  destruct (export_result encode Parquet df output_file es1) as [es2 | e] eqn:Ex.
  - eexists (Ok output_file), _, _. split; [now rewrite Hrun |].
    unfold bindM, print, ret. rewrite print_columns_run. cbn [trace files log set_files globals].
    split; [reflexivity |]. split.
    + rewrite T1, <- !app_assoc. cbn [app]. reflexivity.
    + split.
      * unfold exports. cbn [flat_map app]. apply exports_column_lines.
      * apply (export_keeps_dir Parquet df output_dir "test_reviews.parquet" es1 es2 Hd Ex).
  - eexists (Raise e), _, []. split; [now rewrite Hrun |].
    split; [reflexivity |]. cbn [trace files log set_files globals]. split.
    + rewrite T1, <- !app_assoc. reflexivity.
    + now split.
Qed.

End NumpyFacts.

(** ** The two scripts together *)

Ltac valid_day :=
  cbv [date_valid MAXORDINAL toordinal globals sample_rows sample2_rows default_args];
  lia.

Lemma lcg_bounded_range rng st : 0 <= rng -> 0 <= fst (lcg_bounded rng st) <= rng.
Proof.
  intros H. unfold lcg_bounded. cbn [fst].
  pose proof (Z.mod_pos_bound (lcg_next st) (rng + 1)). lia.
Qed.

(** C5 (amended).  A run of the script on a day whose ordinal is above both
    row counts, with a base directory that can be created, ends with exit
    status 0 whatever the encoders do: all eight exports are attempted, and
    each encoder failure appears as a line of the error stream. *)
Theorem main_exits_zero encode args (w : world date) :
  date_valid (globals w) ->
  sample_rows args < toordinal (globals w) ->
  sample2_rows args < toordinal (globals w) ->
  creatable (files w) (base_dir args) = true ->
  exists df1 df2 w' evs,
    generate_data (globals w) "sample" (sample_rows args) = Ok df1
    /\ generate_data (globals w) "sample2" (sample2_rows args) = Ok df2
    /\ main encode args w = (Ok tt, w')
    /\ exit_status (fst (main encode args w)) = 0
    /\ trace w' = (trace w ++ evs)%list
    /\ exports evs
       = (map (fun f => (f, target (sample_path args) f)) formats
          ++ map (fun f => (f, target (sample2_path args) f)) formats)%list
    /\ (forall f e, encode f df1 = Raise e ->
          In ("Error writing " ++ label f ++ " to "
              ++ path_str (target (sample_path args) f) ++ ": " ++ exn_msg e)
             (stderr evs))
    /\ (forall f e, encode f df2 = Raise e ->
          In ("Error writing " ++ label f ++ " to "
              ++ path_str (target (sample2_path args) f) ++ ": " ++ exn_msg e)
             (stderr evs)).
Proof.
  intros Hv H1 H2 Hc.
  destruct (main_run encode args w Hv H1 H2 Hc)
    as (df1 & df2 & w' & E1 & E2 & Hrun & Ht & _).
  exists df1, df2, w'. eexists. split; [exact E1 |]. split; [exact E2 |].
  split; [exact Hrun |]. split; [now rewrite Hrun |]. split; [exact Ht |].
  split; [| split].
  - rewrite exports_app. cbn [exports flat_map app].
    change (flat_map _ ?t) with (exports t).
    now rewrite !exports_attempts.
  - intros f e He. rewrite stderr_app. apply in_or_app. left.
    apply In_stderr. right.
    pose proof (report_logged encode (files w) df1 (sample_path args) f) as H.
    unfold failure in H. now rewrite He in H.
  - intros f e He. rewrite stderr_app. apply in_or_app. right.
    apply In_stderr. right.
    pose proof (report_logged encode (files w) df2 (sample2_path args) f) as H.
    unfold failure in H. now rewrite He in H.
Qed.

(** C6.  Both scripts create the destination directory before they export.
    For every table and every path stem, [write_files] first creates the
    directory of the stem with the ancestors it lacks: the creation is the
    first event of the call and the exports come after it, and afterwards
    the directory and all its ancestors exist; when the directory did not
    exist before, every export whose encoder succeeds leaves its file in it.
    In [create_test_data] the creation of [test_data] comes before the one
    export, and the directory exists afterwards. *)
Theorem directory_created_before_export
  (G : Type) (encode : format -> DataFrame -> result string)
  (df : DataFrame) (p : Path) (w : world G)
  (rng_state : Type) (seed_state : Z -> rng_state)
  (bounded : Z -> rng_state -> Z * rng_state) (wa : world rng_state) :
  creatable (files w) (parent p) = true ->
  (forall rng st, 0 <= rng -> 0 <= fst (bounded rng st) <= rng) ->
  creatable (files wa) output_dir = true ->
  (exists r w' evs,
     write_files encode df p w = (r, w')
     /\ trace w' = (trace w ++ Mkdir (parent p) :: evs)%list
     /\ (forall k, is_dir (files w') (firstn k (parent p)) = true)
     /\ (name p <> "" ->
         r = Ok tt
         /\ exports evs = [(CSV, target p CSV); (JSON, target p JSON);
                           (Parquet, target p Parquet); (Excel, target p Excel)]
         /\ (lookup (files w) (parent p) = None ->
             forall f content, encode f df = Ok content ->
               lookup (files w') (target p f) = Some (File content))))
  /\ (exists dfa r w' evs,
        create_test_data seed_state bounded encode wa = (r, w')
        /\ trace w'
           = (trace wa ++ Mkdir ["test_data"]
                :: Export Parquet ["test_data"; "test_reviews.parquet"] dfa
                :: evs)%list
        /\ exports evs = []
        /\ is_dir (files w') ["test_data"] = true).
Proof.
  intros Hc Hb Hca. split.
  - exact (write_files_directory encode df p w Hc).
  - destruct (create_test_data_run rng_state seed_state bounded Hb encode wa Hca)
      as (dfa & r & w' & evs & _ & Hrun & Ht & He & Hd).
    exists dfa, r, w', evs. auto.
Qed.


(** C2 (amended).  The table of [create_test_data] has 1000 rows and its
    fourteen columns, each of 1000 cells.  The table of [generate_data] for a
    row count [N] with [1 <= N < today.toordinal()] has [N] rows and the six
    columns id, name, value, date, flag, category, each of [N] cells; for a
    row count of zero or less it has no rows and no columns. *)
Theorem synthesized_table_shape
  (rng_state : Type) (seed_state : Z -> rng_state)
  (bounded : Z -> rng_state -> Z * rng_state)
  (w : world rng_state) (today : date) (prefix : string) (N : Z) :
  (forall rng st, 0 <= rng -> 0 <= fst (bounded rng st) <= rng) ->
  date_valid today -> 1 <= N < toordinal today ->
  (exists df,
     fst (test_data_frame seed_state bounded w) = Ok df
     /\ nrows df = 1000%nat
     /\ columns df = ["source"; "product"; "overall_rating"; "condition";
                      "comment"; "sex"; "duration"; "date"; "age"; "username";
                      "patient_type"; "INN"; "prediction"; "predicted_label"]
     /\ Forall (fun c => List.length (snd c) = 1000%nat) (cols df))
  /\ (exists df,
        generate_data today prefix N = Ok df
        /\ nrows df = Z.to_nat N
        /\ columns df = ["id"; "name"; "value"; "date"; "flag"; "category"]
        /\ Forall (fun c => List.length (snd c) = Z.to_nat N) (cols df))
  /\ (forall M, M <= 0 ->
        generate_data today prefix M = Ok {| nrows := 0; cols := [] |}).
Proof.
  intros Hb Hv HN. split; [| split].
  - destruct (test_data_frame_run rng_state seed_state bounded Hb w)
      as (df & w' & Hrun & _ & _ & Hn & Hc & Hl & _).
    exists df. rewrite Hrun. auto.
  - eexists. split; [apply generate_data_ok; [assumption | lia] |].
    assert (Hlen : List.length (map (record_at today prefix) (range 1 (N + 1)))
                   = Z.to_nat N).
    { rewrite length_map, range_length. f_equal. lia. }
    split; [exact Hlen |]. split.
    + rewrite columns_of_records, range_cons by lia. reflexivity.
    + rewrite <- Hlen. apply column_lengths_of_records.
  - intros M HM. rewrite generate_data_ok by (try assumption; lia).
    now rewrite range_empty by lia.
Qed.

(** The instance of C2 for the generator [lcg_bounded] and, on 2026-11-03,
    five rows. *)
Lemma synthesized_table_shape_witness :
  (exists df, fst (test_data_frame lcg_seed lcg_bounded (mk_world 0 [] [])) = Ok df
              /\ nrows df = 1000%nat)
  /\ (exists df, generate_data (mk_date 739923) "sample" 5 = Ok df
                 /\ nrows df = 5%nat
                 /\ columns df = ["id"; "name"; "value"; "date"; "flag"; "category"]).
Proof.
  destruct (synthesized_table_shape Z lcg_seed lcg_bounded (mk_world 0 [] [])
              (mk_date 739923) "sample" 5 lcg_bounded_range)
    as ((dfa & Ha & Hna & _) & (dfb & Hb & Hnb & Hcb & _) & _);
    [valid_day | valid_day |].
  split; [exists dfa; now split | exists dfb; now repeat split].
Defined.



(** The instance of C8 without the Excel engine, in an empty tree. *)
Lemma write_files_attempts_in_order_witness :
  exists w' evs,
    write_files encode_without_excel (mk_frame 0 []) ["out"; "sample"]
      (mk_world (mk_date 739923) [] []) = (Ok tt, w')
    /\ trace w' = evs
    /\ exports evs = [(CSV, ["out"; "sample.csv"]); (JSON, ["out"; "sample.json"]);
                      (Parquet, ["out"; "sample.parquet"]);
                      (Excel, ["out"; "sample.xlsx"])].
Proof.
  destruct (write_files_attempts_in_order encode_without_excel (mk_frame 0 [])
              ["out"; "sample"] (mk_world (mk_date 739923) [] []))
    as (w' & evs & Hrun & Ht & He);
    [vm_compute; discriminate | reflexivity |].
  exists w', evs. split; [exact Hrun |]. split; [exact Ht | exact He].
Defined.

(** The instance of C6 for the stem [out/nested/sample] and for
    [create_test_data], each in an empty tree. *)
Lemma directory_created_before_export_witness :
  (exists w',
     write_files encode_without_excel (mk_frame 0 []) ["out"; "nested"; "sample"]
       (mk_world (mk_date 739923) [] []) = (Ok tt, w')
     /\ is_dir (files w') ["out"] = true
     /\ is_dir (files w') ["out"; "nested"] = true
     /\ lookup (files w') ["out"; "nested"; "sample.json"] = Some (File "JSON"))
  /\ (exists r w',
        create_test_data lcg_seed lcg_bounded encode_without_excel
          (mk_world 0 [] []) = (r, w')
        /\ is_dir (files w') ["test_data"] = true).
Proof.
  destruct (directory_created_before_export (Py.date) encode_without_excel
              (mk_frame 0 []) ["out"; "nested"; "sample"]
              (mk_world (mk_date 739923) [] [])
              Z lcg_seed lcg_bounded (mk_world 0 [] []))
    as ((r & w' & evs & Hrun & _ & Hd & Hw) & (dfa & ra & wa & evsa & Hra & _ & _ & Hda));
    [reflexivity | exact lcg_bounded_range | reflexivity |].
  destruct Hw as (Hr & _ & Hw); [vm_compute; discriminate |].
  split.
  - exists w'. split; [now rewrite <- Hr |]. split; [exact (Hd 1%nat) |].
    split; [exact (Hd 2%nat) |]. apply (Hw eq_refl JSON "JSON" eq_refl).
  - exists ra, wa. split; [exact Hra | exact Hda].
Defined.

(** The instance of C5 for the default arguments, without the Excel
    engine, on 2026-11-03. *)
Lemma main_exits_zero_witness :
  exit_status
    (fst (main encode_without_excel default_args (mk_world (mk_date 739923) [] [])))
  = 0.
Proof.
  destruct (main_exits_zero encode_without_excel default_args
              (mk_world (mk_date 739923) [] []))
    as (df1 & df2 & w' & evs & _ & _ & _ & Hexit & _);
    [valid_day | valid_day | valid_day | reflexivity |].
  exact Hexit.
Defined.

(** The instance of C4 for the generator [lcg_bounded], first row. *)
Lemma test_data_bounds_witness :
  exists df,
    fst (test_data_frame lcg_seed lcg_bounded (mk_world 0 [] [])) = Ok df
    /\ exists rating age duration,
         cell df "overall_rating" 0 = Some (VInt rating) /\ 1 <= rating <= 5
         /\ cell df "age" 0 = Some (VInt age) /\ 18 <= age <= 80
         /\ cell df "duration" 0 = Some (VInt duration) /\ 1 <= duration <= 365.
Proof.
  destruct (test_data_bounds Z lcg_seed lcg_bounded lcg_bounded_range
              (mk_world 0 [] [])) as (df & Hdf & Hb).
  exists df. split; [exact Hdf |]. apply (Hb 0%nat). lia.
Defined.

(** The instance of C7 for the generator [lcg_bounded] and two different
    worlds. *)
Lemma test_data_deterministic_witness :
  exists df,
    fst (test_data_frame lcg_seed lcg_bounded (mk_world 0 [] [])) = Ok df
    /\ fst (test_data_frame lcg_seed lcg_bounded
              (mk_world 2024 [("test_data", Dir [])] [Stdout "earlier output"]))
       = Ok df.
Proof.
  exact (test_data_deterministic Z lcg_seed lcg_bounded lcg_bounded_range
           (mk_world 0 [] [])
           (mk_world 2024 [("test_data", Dir [])] [Stdout "earlier output"])).
Defined.


(** When the first row count reaches the ordinal of the day the synthesis
    raises before anything is written. *)
Lemma main_overflow encode args (w : world date) :
  date_valid (globals w) -> toordinal (globals w) <= sample_rows args ->
  main encode args w = (Raise (OverflowError "date value out of range"), w).
Proof.
  intros Hv Hr. unfold main. cbn [for_eachM].
  unfold bindM at 1 2 3, get_globals, lift.
  now rewrite generate_data_overflow.
Qed.

(** C5 as stated fails for a large row count: on 2026-11-03 the run with
    [--sample-rows 739923] ends with exit status 1, with nothing written to
    either stream by the script. *)
Lemma main_exit_status_overflow :
  exit_status
    (fst (main encode_without_excel (mk_args ["out"] 739923 8)
            (mk_world (mk_date 739923) [] [])))
  = 1
  /\ trace (snd (main encode_without_excel (mk_args ["out"] 739923 8)
                   (mk_world (mk_date 739923) [] [])))
     = [].
Proof.
  rewrite main_overflow; [split; reflexivity | valid_day | valid_day].
Qed.

(** C2 as stated fails at both ends: for zero rows the table has no
    columns, and on 2026-11-03 a request for 739923 rows raises. *)
Lemma generate_data_shape_fails :
  (generate_data (mk_date 739923) "sample" 0 = Ok {| nrows := 0; cols := [] |}
   /\ columns {| nrows := 0; cols := [] |}
      <> ["id"; "name"; "value"; "date"; "flag"; "category"])
  /\ generate_data (mk_date 739923) "sample" 739923
     = Raise (OverflowError "date value out of range").
Proof.
  split; [split; [reflexivity | discriminate] |].
  apply generate_data_overflow; valid_day.
Qed.

(* ===================================================================== *)
(** * Further properties of the two scripts *)
(* ===================================================================== *)

(** ** More on [generate_data] *)

Lemma same_float_eq x y : same_float x y = true -> x = y.
Proof.
  destruct x as [| | |s m e], y as [| | |s' m' e']; try discriminate. cbn.
  intros H. apply andb_prop in H as [H He]. apply andb_prop in H as [Hs Hm].
  apply Bool.eqb_prop in Hs. apply Pos.eqb_eq in Hm. apply Z.eqb_eq in He.
  now subst.
Qed.

Lemma all_from_spec (P : Z -> bool) n : forall i,
  all_from P n i = true -> forall j, i <= j < i + Z.of_nat n -> P j = true.
Proof.
  induction n as [|n IH]; intros i H j Hj; [lia |].
  cbn [all_from] in H. apply andb_prop in H as [Hi Hrest].
  destruct (Z.eq_dec j i) as [-> | Hne]; [exact Hi |].
  apply (IH (i + 1) Hrest). lia.
Qed.

Lemma values_are_decimal :
  all_from (value_is_decimal (float_lit 11 10)) (Z.to_nat 10000) 1 = true.
Proof. vm_cast_no_check (eq_refl true). Qed.

Lemma value_decimal i :
  1 <= i <= 10000 ->
  round (float_mul (nearest_double i) (float_lit 11 10)) 2
  = float_lit (Z.to_pos (11 * i)) 10.
Proof.
  intros Hi. apply same_float_eq.
  apply (all_from_spec _ _ _ values_are_decimal). lia.
Qed.

Lemma get_other_than_name c today p1 p2 i :
  c <> "name" ->
  get_or_nan c (record_at today p1 i) = get_or_nan c (record_at today p2 i).
Proof.
  intros Hc. unfold get_or_nan, record_at. cbn [dict_get].
  repeat match goal with
         | |- context [String.eqb c ?k] =>
             destruct (String.eqb_spec c k); [try reflexivity; try contradiction |]
         end.
  reflexivity.
Qed.

(** X1.  On a valid day [generate_data] returns a table exactly when the
    row count is below the ordinal of the day; from the ordinal on it raises
    [OverflowError('date value out of range')], whatever the prefix, and
    returns no part of the table. *)
Theorem generate_data_returns_iff today prefix rows :
  date_valid today ->
  ((exists df, generate_data today prefix rows = Ok df) <-> rows < toordinal today)
  /\ (toordinal today <= rows ->
      generate_data today prefix rows
      = Raise (OverflowError "date value out of range")).
Proof.
  intros Hv. split; [split |].
  - intros (df & Hdf). destruct (Z.lt_ge_cases rows (toordinal today)) as [H | H];
      [exact H |].
    rewrite generate_data_overflow in Hdf by assumption. discriminate.
  - intros H. eexists. now apply generate_data_ok.
  - now apply generate_data_overflow.
Qed.

(** X2.  In the first 10000 rows the rounding removes the error of the
    multiplication: the [value] of row [i] is the double of the decimal
    [11 i / 10] ([1.1], [2.2], [3.3], ...), the one the literal with one
    decimal denotes. *)
Theorem generate_data_value_decimal today prefix N i :
  date_valid today -> N < toordinal today -> 1 <= i <= N -> i <= 10000 ->
  exists df,
    generate_data today prefix N = Ok df
    /\ cell df "value" (Z.to_nat (i - 1))
       = Some (VFloat (float_lit (Z.to_pos (11 * i)) 10)).
Proof.
  intros Hv HN Hi Hbound. eexists. split; [now apply generate_data_ok |].
  rewrite (cell_of_records today prefix _ "value" _ i);
    [| reflexivity | rewrite range_nth by lia; f_equal; lia].
  cbn [get_or_nan record_at dict_get String.eqb Ascii.eqb Bool.eqb].
  now rewrite value_decimal by lia.
Qed.

(** X3.  A row depends on its index alone, and on the prefix in its [name]
    alone: on the same day the table of [N1] rows is, column by column, the
    first [N1] rows of the table of [N2 >= N1] rows, for two prefixes in
    every column but [name] and for the same prefix in every column. *)
Theorem generate_data_rows_by_index today p1 p2 N1 N2 :
  date_valid today -> 1 <= N1 <= N2 -> N2 < toordinal today ->
  exists df1 df2,
    generate_data today p1 N1 = Ok df1
    /\ generate_data today p2 N2 = Ok df2
    /\ forall c, c <> "name" \/ p1 = p2 ->
         column c (cols df1)
         = option_map (firstn (Z.to_nat N1)) (column c (cols df2)).
Proof.
  intros Hv H1 H2. do 2 eexists.
  split; [apply generate_data_ok; [assumption | lia] |].
  split; [apply generate_data_ok; [assumption | lia] |].
  intros c Hc. rewrite !column_of_records.
  rewrite (range_split 1 (N1 + 1) (N2 + 1)) by lia.
  rewrite (range_cons 1 (N1 + 1)) by lia. cbn [app].
  destruct (existsb (String.eqb c) sample_columns); [| reflexivity].
  cbn [option_map]. f_equal.
  rewrite <- (range_cons 1 (N1 + 1)) by lia.
  change (1 :: (range (1 + 1) (N1 + 1) ++ range (N1 + 1) (N2 + 1)))%list
    with ((1 :: range (1 + 1) (N1 + 1)) ++ range (N1 + 1) (N2 + 1))%list.
  rewrite <- (range_cons 1 (N1 + 1)) by lia.
  rewrite map_app.
  replace (Z.to_nat N1)
    with (List.length (map (fun i => get_or_nan c (record_at today p2 i))
                           (range 1 (N1 + 1)))
          + 0)%nat
    by (rewrite length_map, range_length; lia).
  rewrite firstn_app_2. cbn [firstn]. rewrite app_nil_r.
  apply map_ext. intros i.
  destruct Hc as [Hc | ->]; [now apply get_other_than_name | reflexivity].
Qed.

(** ** The writer: errors and reports *)

(** The error of [mkdir] when a regular file is in the way: [FileExistsError]
    when the file is at the path itself, [NotADirectoryError] when it is at
    one of its ancestors. *)
Lemma mkdir_in_blocked whole d : forall es,
  creatable es d = false ->
  mkdir_in whole true true es d
  = Raise (match lookup es d with
           | Some (File _) => FileExistsError whole
           | _ => NotADirectoryError whole
           end).
Proof.
  induction d as [|c rest IH]; intros es Hc; [discriminate |].
  cbn in Hc. cbn [mkdir_in lookup].
  destruct (assoc c es) as [[content | sub] |] eqn:E.
  - now destruct rest.
  - now rewrite (IH sub Hc).
  - discriminate.
Qed.


Section WriterExtras.
Context {G : Type}.
Variable encode : format -> DataFrame -> result string.

(** X4.  When a regular file stands where the directory of the path stem or
    one of its ancestors should be, [write_files] raises the error of
    [mkdir], which names the directory: [FileExistsError] when the file is
    at the directory itself, [NotADirectoryError] when it is at an ancestor.
    No export is attempted, nothing is printed and the tree is left as it
    was. *)
Theorem write_files_blocked_by_file df p (w : world G) :
  creatable (files w) (parent p) = false ->
  write_files encode df p w
  = (Raise (match lookup (files w) (parent p) with
            | Some (File _) => FileExistsError (path_str (parent p))
            | _ => NotADirectoryError (path_str (parent p))
            end),
     mk_world (globals w) (files w) (trace w ++ [Mkdir (parent p)])).
Proof.
  intros Hc. unfold write_files, bindM at 1, Path_mkdir, mkdir. cbn [files log].
  now rewrite (mkdir_in_blocked _ _ _ Hc).
Qed.

(** X5.  For a path stem without a final component ([Path('.')],
    [Path('/')]) [write_files] raises the [ValueError] of [with_suffix],
    after it has created the directory and before any export. *)
Theorem write_files_empty_name df p (w : world G) :
  name p = "" -> creatable (files w) (parent p) = true ->
  exists w',
    write_files encode df p w
    = (Raise (ValueError ("PosixPath('" ++ path_str p ++ "') has an empty name")), w')
    /\ trace w' = (trace w ++ [Mkdir (parent p)])%list
    /\ is_dir (files w') (parent p) = true.
Proof.
  intros Hn Hc. destruct (mkdir_parents_ok _ _ Hc) as (es0 & Hm & Hd & _).
  unfold write_files, bindM at 1, Path_mkdir. cbn [files log]. rewrite Hm.
  rewrite bindM_lift. unfold with_suffix. rewrite Hn. cbn [String.eqb].
  eexists. split; [reflexivity |]. split; [reflexivity | exact Hd].
Qed.





End WriterExtras.

(** ** The footprint of the writer *)

Lemma keeps_refl T D es : keeps T D es es.
Proof. repeat split; auto. Qed.

Lemma keeps_trans T D es1 es2 es3 :
  keeps T D es1 es2 -> keeps T D es2 es3 -> keeps T D es1 es3.
Proof.
  intros (F1 & K1 & N1) (F2 & K2 & N2). split; [| split].
  - intros q content Hq. rewrite (F1 q content Hq). apply F2, Hq.
  - auto.
  - intros q Hq. destruct (N2 q Hq) as [H | H]; auto.
Qed.

Lemma keeps_incl T T' D D' es es' :
  incl T T' -> incl D D' -> keeps T D es es' -> keeps T' D' es es'.
Proof.
  intros HT HD (F & K & N). split; [| split].
  - intros q content Hq. apply F. intros H. apply Hq, HT, H.
  - exact K.
  - intros q Hq. destruct (N q Hq) as [H | H]; auto.
Qed.

Lemma ancestors_top d : In [] (ancestors d).
Proof. destruct d; now left. Qed.

Lemma ancestors_self d : In d (ancestors d).
Proof.
  induction d as [|c d IH]; [now left |]. right. now apply in_map.
Qed.

(** A change inside the directory [c]. *)
Lemma keeps_update_dir T D c sub sub' es :
  assoc c es = Some (Dir sub) ->
  keeps T D sub sub' ->
  keeps (map (cons c) T) (map (cons c) D) es (update c (Dir sub') es).
Proof.
  intros Hc (F & K & N). split; [| split].
  - intros [|c' r] content Hq; [cbn; split; discriminate |].
    destruct (String.eqb_spec c' c) as [-> | Hne].
    + rewrite lookup_update.
      assert (Hr : ~ In r T) by (intros H; apply Hq; now apply in_map).
      rewrite <- (F r content Hr). cbn. now rewrite Hc.
    + now rewrite lookup_update_other.
  - intros [|c' r] Hq; [reflexivity |].
    destruct (String.eqb_spec c' c) as [-> | Hne].
    + unfold is_dir in *. rewrite lookup_update. cbn in Hq. rewrite Hc in Hq.
      apply K, Hq.
    + unfold is_dir in *. now rewrite lookup_update_other.
  - intros [|c' r] Hq; [now left |].
    destruct (String.eqb_spec c' c) as [-> | Hne].
    + unfold is_dir in Hq. rewrite lookup_update in Hq.
      destruct (N r Hq) as [H | H].
      * left. unfold is_dir. cbn. now rewrite Hc.
      * right. now apply in_map.
    + left. unfold is_dir in *. now rewrite lookup_update_other in Hq.
Qed.

(** A new directory [c] with what was made in it. *)
Lemma keeps_update_new D c sub' es :
  assoc c es = None ->
  keeps [] D [] sub' ->
  keeps [] ([c] :: map (cons c) D) es (update c (Dir sub') es).
Proof.
  intros Hc (F & K & N). split; [| split].
  - intros [|c' r] content Hq; [cbn; split; discriminate |].
    destruct (String.eqb_spec c' c) as [-> | Hne].
    + rewrite lookup_update, <- (F r content (fun H => H)). cbn. rewrite Hc.
      destruct r; split; discriminate.
    + now rewrite lookup_update_other.
  - intros [|c' r] Hq; [reflexivity |].
    destruct (String.eqb_spec c' c) as [-> | Hne].
    + unfold is_dir in Hq. cbn in Hq. now rewrite Hc in Hq.
    + unfold is_dir in *. now rewrite lookup_update_other.
  - intros [|c' r] Hq; [now left |].
    destruct (String.eqb_spec c' c) as [-> | Hne].
    + unfold is_dir in Hq. rewrite lookup_update in Hq. right.
      destruct (N r Hq) as [H | H].
      * destruct r; [now left | discriminate].
      * right. now apply in_map.
    + left. unfold is_dir in *. now rewrite lookup_update_other in Hq.
Qed.

Lemma mkdir_in_keeps whole parents exist_ok d : forall es es',
  mkdir_in whole parents exist_ok es d = Ok es' -> keeps [] (ancestors d) es es'.
Proof.
  induction d as [|c rest IH]; intros es es' H.
  - cbn in H. destruct exist_ok; [| discriminate]. injection H as <-. apply keeps_refl.
  - cbn [mkdir_in] in H. destruct (assoc c es) as [[content | sub] |] eqn:E.
    + destruct rest; discriminate.
    + destruct (mkdir_in whole parents exist_ok sub rest) as [sub' |] eqn:Em;
        [| discriminate].
      injection H as <-.
      apply (keeps_incl (map (cons c) []) _ (map (cons c) (ancestors rest)));
        [intros q [] | intros q Hq; now right |].
      apply (keeps_update_dir [] (ancestors rest) c sub sub' es E), IH, Em.
    + destruct rest as [|c' rest'].
      * injection H as <-.
        apply (keeps_incl [] _ ([c] :: map (cons c) []));
          [intros q [] | intros q [<- | []]; right; now left |].
        apply keeps_update_new; [exact E | apply keeps_refl].
      * destruct parents; [| discriminate].
        destruct (mkdir_in whole true exist_ok [] (c' :: rest')) as [sub' |] eqn:Em;
          [| discriminate].
        injection H as <-.
        apply (keeps_incl [] _ ([c] :: map (cons c) (ancestors (c' :: rest'))));
          [intros q [] | |].
        -- intros q [<- | Hq]; right; [| exact Hq].
           apply (in_map (cons c)), ancestors_top.
        -- apply keeps_update_new; [exact E | apply IH, Em].
Qed.

Lemma mkdir_keeps parents exist_ok d es es' :
  mkdir parents exist_ok es d = Ok es' -> keeps [] (ancestors d) es es'.
Proof. apply mkdir_in_keeps. Qed.

(** Writing a file changes the file alone. *)
Lemma write_file_in_keeps whole t : forall es content es',
  write_file_in whole es t content = Ok es' -> keeps [t] [] es es'.
Proof.
  induction t as [|c rest IH]; intros es content es' H; [discriminate |].
  destruct rest as [|c' rest'].
  - cbn in H.
    assert (Hc : forall sub, assoc c es <> Some (Dir sub)).
    { intros sub E. rewrite E in H. discriminate. }
    assert (He : es' = update c (File content) es).
    { destruct (assoc c es) as [[? | ?] |]; congruence. }
    subst es'. clear H. split; [| split].
    + intros [|c1 r] content' Hq; [cbn; split; discriminate |].
      destruct (String.eqb_spec c1 c) as [-> | Hne].
      * rewrite lookup_update. cbn.
        destruct r as [|c2 r]; [exfalso; apply Hq; now left |].
        destruct (assoc c es) as [[? | sub] |]; try (split; discriminate).
        now destruct (Hc sub).
      * now rewrite lookup_update_other.
    + intros [|c1 r] Hq; [reflexivity |].
      destruct (String.eqb_spec c1 c) as [-> | Hne].
      * apply is_dir_cons in Hq as (sub & E & _). now destruct (Hc sub).
      * unfold is_dir in *. now rewrite lookup_update_other.
    + intros [|c1 r] Hq; [now left |]. left.
      destruct (String.eqb_spec c1 c) as [-> | Hne].
      * unfold is_dir in Hq. rewrite lookup_update in Hq. now destruct r.
      * unfold is_dir in *. now rewrite lookup_update_other in Hq.
  - rewrite write_file_in_cons in H by discriminate.
    destruct (assoc c es) as [[? | sub] |] eqn:E; try discriminate.
    destruct (write_file_in whole sub (c' :: rest') content) as [sub' |] eqn:Ew;
      [| discriminate].
    injection H as <-.
    apply (keeps_update_dir [c' :: rest'] [] c sub sub' es E), (IH _ _ _ Ew).
Qed.

Lemma write_file_keeps t es content es' :
  write_file es t content = Ok es' -> keeps [t] [] es es'.
Proof. apply write_file_in_keeps. Qed.

Section Frames.
Context {G : Type}.

Lemma frames_still T D {A} (m : M G A) :
  (forall w, files (snd (m w)) = files w) -> frames T D m.
Proof. intros H w. rewrite H. apply keeps_refl. Qed.

Lemma frames_incl T T' D D' {A} (m : M G A) :
  incl T T' -> incl D D' -> frames T D m -> frames T' D' m.
Proof. intros HT HD H w. eapply keeps_incl; eauto. Qed.

Lemma frames_bind T D {A B} (m : M G A) (k : A -> M G B) :
  frames T D m -> (forall a, frames T D (k a)) -> frames T D (bindM m k).
Proof.
  intros Hm Hk w. specialize (Hm w). unfold bindM.
  destruct (m w) as [[a | e] w1]; cbn [snd] in *; [| exact Hm].
  eapply keeps_trans; [exact Hm | apply Hk].
Qed.



Lemma frames_for_eachM T D {A} (xs : list A) (body : A -> M G unit) :
  (forall x, In x xs -> frames T D (body x)) -> frames T D (for_eachM xs body).
Proof.
  induction xs as [|x xs IH]; intros H; cbn [for_eachM].
  - now apply frames_still.
  - apply frames_bind; [apply H; now left |].
    intros _. apply IH. intros y Hy. apply H. now right.
Qed.

Lemma frames_mkdir parents exist_ok p :
  frames [] (ancestors p) (Path_mkdir parents exist_ok p : M G unit).
Proof.
  intros w. unfold Path_mkdir. cbn [files log].
  destruct (mkdir parents exist_ok (files w) p) as [es |] eqn:E; cbn.
  - eapply mkdir_keeps, E.
  - apply keeps_refl.
Qed.

Variable encode : format -> DataFrame -> result string.

Lemma frames_export f df p : frames [p] [] (export encode f df p : M G unit).
Proof.
  intros w. unfold export, export_result. cbn [files log].
  destruct (encode f df) as [content | e]; cbn [bind]; [| apply keeps_refl].
  destruct (write_file (files w) p content) as [es |] eqn:E; cbn.
  - eapply write_file_keeps, E.
  - apply keeps_refl.
Qed.





End Frames.

(** ** Names and suffixes *)

Lemma length_append s t :
  String.length (s ++ t) = (String.length s + String.length t)%nat.
Proof. induction s as [|c s IH]; cbn; [reflexivity | now rewrite IH]. Qed.

Lemma substring_whole s : substring 0 (String.length s) s = s.
Proof. induction s as [|c s IH]; cbn; [reflexivity | now rewrite IH]. Qed.

Lemma substring_head s t : substring 0 (String.length s) (s ++ t) = s.
Proof.
  induction s as [|c s IH]; cbn; [now destruct t | now rewrite IH].
Qed.

Lemma substring_tail s t :
  substring (String.length s) (String.length t) (s ++ t) = t.
Proof. induction s as [|c s IH]; cbn; [apply substring_whole | exact IH]. Qed.

Lemma substring_length_le s : forall n m,
  (String.length (substring n m s) <= String.length s - n)%nat.
Proof.
  induction s as [|c s IH]; intros n m.
  - destruct n, m; cbn; lia.
  - destruct n as [|n].
    + destruct m as [|m]; cbn; [lia |]. specialize (IH O m). lia.
    + cbn. apply IH.
Qed.

Lemma rfind_dot_append s t i :
  rfind_dot t = Some i -> rfind_dot (s ++ t) = Some (String.length s + i)%nat.
Proof.
  intros H. induction s as [|c s IH]; cbn; [exact H | now rewrite IH].
Qed.

Lemma suffix_shorter nm : nm <> "" -> (String.length (suffix nm) < String.length nm)%nat.
Proof.
  intros Hn. assert (0 < String.length nm)%nat by (destruct nm; [contradiction | cbn; lia]).
  unfold suffix. destruct (rfind_dot nm) as [i |]; [| cbn; lia].
  destruct (Nat.ltb_spec 0 i); cbn [andb]; [| cbn; lia].
  destruct (Nat.ltb_spec i (String.length nm - 1)); [| cbn; lia].
  pose proof (substring_length_le nm i (String.length nm - i)). lia.
Qed.

Lemma stem_nonempty nm : nm <> "" -> stem nm <> "".
Proof.
  intros Hn. pose proof (suffix_shorter nm Hn) as H. unfold stem.
  destruct (String.length nm - String.length (suffix nm))%nat as [|k] eqn:E; [lia |].
  destruct nm as [|c nm]; [contradiction |]. discriminate.
Qed.

(** The name of a target has the extension of its format as suffix and the
    stem it was made from as stem. *)
Lemma suffix_stem_target s f :
  s <> "" -> suffix (s ++ extension f) = extension f /\ stem (s ++ extension f) = s.
Proof.
  intros Hs.
  assert (Hpos : (0 < String.length s)%nat) by (destruct s; [contradiction | cbn; lia]).
  assert (Hext : rfind_dot (extension f) = Some O
                 /\ (2 <= String.length (extension f))%nat)
    by (destruct f; cbn; split; (reflexivity || lia)).
  destruct Hext as [Hdot Hlen].
  assert (Hsfx : suffix (s ++ extension f) = extension f).
  { unfold suffix. rewrite (rfind_dot_append s _ _ Hdot), Nat.add_0_r, length_append.
    destruct (Nat.ltb_spec 0 (String.length s)); [| lia].
    destruct (Nat.ltb_spec (String.length s)
                (String.length s + String.length (extension f) - 1)); [| lia].
    cbn [andb].
    replace (String.length s + String.length (extension f) - String.length s)%nat
      with (String.length (extension f)) by lia.
    apply substring_tail. }
  split; [exact Hsfx |]. unfold stem. rewrite Hsfx, length_append.
  replace (String.length s + String.length (extension f)
           - String.length (extension f))%nat with (String.length s) by lia.
  apply substring_head.
Qed.

Lemma target_name_not_root s f : s ++ extension f <> "/".
Proof. destruct s as [|a [|b s]], f; discriminate. Qed.

Lemma target_name_nonempty s f : s ++ extension f <> "".
Proof. destruct s, f; discriminate. Qed.

Lemma target_target p f g : name p <> "" -> target (target p f) g = target p g.
Proof.
  intros Hn. unfold target at 1 2.
  rewrite parent_joinpath, name_joinpath by apply target_name_not_root.
  destruct (suffix_stem_target (stem (name p)) f (stem_nonempty _ Hn)) as [_ ->].
  reflexivity.
Qed.

Section OwnOutput.
Context {G : Type}.
Variable encode : format -> DataFrame -> result string.

Lemma with_suffix_extension p f :
  with_suffix p (extension f)
  = if String.eqb (name p) ""
    then Raise (ValueError ("PosixPath('" ++ path_str p ++ "') has an empty name"))
    else Ok (target p f).
Proof. unfold with_suffix. destruct (String.eqb (name p) ""); now destruct f. Qed.

(** X8.  The suffix of the path stem is replaced, not kept: a call of
    [write_files] with one of its own targets as stem (for instance
    [out/sample.csv] for [out/sample]) is the same call, with the same four
    targets, the same events and the same tree afterwards. *)
Theorem write_files_on_own_target df p f (w : world G) :
  name p <> "" ->
  write_files encode df (target p f) w = write_files encode df p w
  /\ forall g, with_suffix (target p f) (extension g) = Ok (target p g).
Proof.
  intros Hn.
  assert (Hname : name (target p f) <> "").
  { unfold target. rewrite name_joinpath by apply target_name_not_root.
    apply target_name_nonempty. }
  assert (Hpar : parent (target p f) = parent p).
  { unfold target. now rewrite parent_joinpath by apply target_name_not_root. }
  assert (Hsfx : forall g, with_suffix (target p f) (extension g)
                           = with_suffix p (extension g)).
  { intros g. rewrite !with_suffix_extension.
    destruct (String.eqb_spec (name (target p f)) ""); [contradiction |].
    destruct (String.eqb_spec (name p) ""); [contradiction |].
    now rewrite target_target. }
  split.
  - unfold write_files. rewrite Hpar.
    change ".csv" with (extension CSV). change ".json" with (extension JSON).
    change ".parquet" with (extension Parquet). change ".xlsx" with (extension Excel).
    now rewrite !Hsfx.
  - intros g. rewrite Hsfx. now apply with_suffix_target.
Qed.

End OwnOutput.

(** ** More on the script of create_test_samples.py *)

Section ScriptExtras.
Variable encode : format -> DataFrame -> result string.

(** X9.  When the first row count reaches the ordinal of the day, [main]
    raises [OverflowError] from the synthesis of the first table, before
    [write_files] is called: the run ends with exit status 1 and leaves the
    world as it found it, with no directory made, no file written and
    nothing printed. *)
Theorem main_fails_before_writing args (w : world date) :
  date_valid (globals w) -> toordinal (globals w) <= sample_rows args ->
  main encode args w = (Raise (OverflowError "date value out of range"), w)
  /\ exit_status (fst (main encode args w)) = 1.
Proof.
  intros Hv Hr.
  pose proof (main_overflow encode args w Hv Hr) as H.
  split; [exact H | now rewrite H].
Qed.

(** X10.  When the second row count alone reaches the ordinal of the day,
    [main] fails half way: the four exports of [sample] have been attempted
    and those that succeeded have left their files, then the synthesis of
    [sample2] raises [OverflowError]; the run ends with exit status 1 and no
    target of [sample2] has been touched. *)
Theorem main_fails_after_first_dataset args (w : world date) :
  date_valid (globals w) ->
  sample_rows args < toordinal (globals w) ->
  toordinal (globals w) <= sample2_rows args ->
  creatable (files w) (base_dir args) = true ->
  exists df1 w' evs,
    generate_data (globals w) "sample" (sample_rows args) = Ok df1
    /\ main encode args w = (Raise (OverflowError "date value out of range"), w')
    /\ exit_status (fst (main encode args w)) = 1
    /\ trace w' = (trace w ++ evs)%list
    /\ exports evs
       = [(CSV, joinpath (base_dir args) "sample.csv");
          (JSON, joinpath (base_dir args) "sample.json");
          (Parquet, joinpath (base_dir args) "sample.parquet");
          (Excel, joinpath (base_dir args) "sample.xlsx")]
    /\ (forall f content, encode f df1 = Ok content ->
          is_dir (files w) (joinpath (base_dir args) ("sample" ++ extension f)) = false ->
          lookup (files w') (joinpath (base_dir args) ("sample" ++ extension f))
          = Some (File content))
    /\ (forall f,
          lookup (files w') (joinpath (base_dir args) ("sample2" ++ extension f))
          = lookup (files w) (joinpath (base_dir args) ("sample2" ++ extension f))).
Proof.
  intros Hv H1 H2 Hc.
  pose proof (generate_data_ok (globals w) "sample" _ Hv H1) as E1.
  set (df1 := DataFrame_of_records _) in E1.
  assert (Hp1 : parent (sample_path args) = base_dir args)
    by (apply parent_joinpath; discriminate).
  assert (Hn1 : name (sample_path args) <> "")
    by (unfold sample_path; rewrite name_joinpath; discriminate).
  destruct (write_files_run encode df1 (sample_path args) w Hn1)
    as (w1 & Hrun1 & Hg1 & Ht1 & Hd1 & Hfr1 & Hf1); [now rewrite Hp1 |].
  assert (Hmain : main encode args w
                  = (Raise (OverflowError "date value out of range"), w1)).
  { unfold main. cbn [for_eachM].
    unfold bindM at 1 2 3, get_globals, lift. rewrite E1.
    fold (sample_path args). rewrite Hrun1.
    unfold bindM at 1 2 3, get_globals, lift. rewrite Hg1.
    now rewrite generate_data_overflow. }
  exists df1, w1. eexists. split; [exact E1 |]. split; [exact Hmain |].
  split; [now rewrite Hmain |]. split; [exact Ht1 |]. split; [| split].
  - cbn [exports flat_map app]. change (flat_map _ ?t) with (exports t).
    rewrite exports_attempts. unfold formats. cbn [map].
    now rewrite !target_sample.
  - intros f content He Hdir. rewrite <- target_sample in *.
    specialize (Hf1 f). unfold failure in Hf1. rewrite He, Hdir in Hf1.
    now destruct Hf1 as (content' & [= <-] & Hl).
  - intros g. rewrite <- Hp1. apply Hfr1. intros f.
    unfold sample_path. rewrite name_joinpath by discriminate.
    apply sample_names_differ.
Qed.

End ScriptExtras.

(** ** The footprint of the script *)

Section ScriptFrames.
Variable encode : format -> DataFrame -> result string.


End ScriptFrames.

(** ** More on create_test_data.py *)

Section NumpyExtras.
Variable rng_state : Type.
Variable seed_state : Z -> rng_state.
Variable bounded : Z -> rng_state -> Z * rng_state.

Hypothesis bounded_range :
  forall rng st, 0 <= rng -> 0 <= fst (bounded rng st) <= rng.

(** The columns of a run, one by one. *)
Lemma test_data_frame_contents (w : world rng_state) :
  exists source rating condition sex duration age ptype inn prediction plabel w',
    test_data_frame seed_state bounded w
    = (Ok (mk_frame 1000
             [("source", map VStr source);
              ("product", map VStr (map (fun i => "product_" ++ str_int i)
                                        (range 0 n_rows)));
              ("overall_rating", map VInt rating);
              ("condition", map VStr condition);
              ("comment", map VStr (map (fun i => "comment_" ++ str_int i)
                                        (range 0 n_rows)));
              ("sex", map VStr sex);
              ("duration", map VInt duration);
              ("date", map VDate (firstn (Z.to_nat n_rows)
                                         (date_range date_2023_01_01 n_rows)));
              ("age", map VInt age);
              ("username", map VStr (map (fun i => "user_" ++ str_int i)
                                         (range 0 n_rows)));
              ("patient_type", map VStr ptype);
              ("INN", map VStr inn);
              ("prediction", map VStr prediction);
              ("predicted_label", map VInt plabel)]), w')
    /\ files w' = files w /\ trace w' = trace w
    /\ (List.length source = 1000%nat
        /\ Forall (fun y => In y ["source_A"; "source_B"; "source_C"]) source)
    /\ (List.length condition = 1000%nat
        /\ Forall (fun y => In y ["condition_1"; "condition_2"; "condition_3"]) condition)
    /\ (List.length sex = 1000%nat /\ Forall (fun y => In y ["M"; "F"]) sex)
    /\ (List.length ptype = 1000%nat
        /\ Forall (fun y => In y ["type_A"; "type_B"]) ptype)
    /\ (List.length inn = 1000%nat
        /\ Forall (fun y => In y ["INN_1"; "INN_2"; "INN_3"]) inn)
    /\ (List.length prediction = 1000%nat
        /\ Forall (fun y => In y ["positive"; "negative"; "neutral"]) prediction)
    /\ (List.length plabel = 1000%nat /\ Forall (fun x => 0 <= x < 3) plabel).
Proof.
  assert (Hsize : 0 <= n_rows) by (unfold n_rows; lia).
  set (w0 := set_globals (seed_state 42) w).
  destruct (choice_run _ bounded bounded_range
              ["source_A"; "source_B"; "source_C"] n_rows w0)
    as (source & w1 & R1 & F1 & T1 & L1 & B1); [discriminate | exact Hsize |].
  destruct (randint_run _ bounded bounded_range 1 6 n_rows w1)
    as (rating & w2 & R2 & F2 & T2 & L2 & _); [lia | exact Hsize |].
  destruct (choice_run _ bounded bounded_range
              ["condition_1"; "condition_2"; "condition_3"] n_rows w2)
    as (condition & w3 & R3 & F3 & T3 & L3 & B3); [discriminate | exact Hsize |].
  destruct (choice_run _ bounded bounded_range ["M"; "F"] n_rows w3)
    as (sex & w4 & R4 & F4 & T4 & L4 & B4); [discriminate | exact Hsize |].
  destruct (randint_run _ bounded bounded_range 1 365 n_rows w4)
    as (duration & w5 & R5 & F5 & T5 & L5 & _); [lia | exact Hsize |].
  destruct (randint_run _ bounded bounded_range 18 80 n_rows w5)
    as (age & w6 & R6 & F6 & T6 & L6 & _); [lia | exact Hsize |].
  destruct (choice_run _ bounded bounded_range ["type_A"; "type_B"] n_rows w6)
    as (ptype & w7 & R7 & F7 & T7 & L7 & B7); [discriminate | exact Hsize |].
  destruct (choice_run _ bounded bounded_range
              ["INN_1"; "INN_2"; "INN_3"] n_rows w7)
    as (inn & w8 & R8 & F8 & T8 & L8 & B8); [discriminate | exact Hsize |].
  destruct (choice_run _ bounded bounded_range
              ["positive"; "negative"; "neutral"] n_rows w8)
    as (prediction & w9 & R9 & F9 & T9 & L9 & B9); [discriminate | exact Hsize |].
  destruct (randint_run _ bounded bounded_range 0 3 n_rows w9)
    as (plabel & w10 & R10 & F10 & T10 & L10 & B10); [lia | exact Hsize |].
  assert (Hn : Z.to_nat n_rows = 1000%nat) by reflexivity.
  assert (Hrange : List.length (range 0 n_rows) = 1000%nat)
    by (now rewrite range_length).
  assert (Hdate : List.length (firstn (Z.to_nat n_rows)
                                 (date_range date_2023_01_01 n_rows)) = 1000%nat).
  { rewrite length_firstn. unfold date_range. rewrite length_map, Hrange, Hn.
    reflexivity. }
  rewrite Hn in L1, L2, L3, L4, L5, L6, L7, L8, L9, L10.
  exists source, rating, condition, sex, duration, age, ptype, inn, prediction,
    plabel, w10.
  split.
  { unfold test_data_frame.
    rewrite (bindM_run _ (np_random_seed seed_state 42) _ w tt w0 eq_refl).
    rewrite (bindM_run _ _ _ _ _ _ R1). cbv beta zeta.
    rewrite (bindM_run _ _ _ _ _ _ R2), (bindM_run _ _ _ _ _ _ R3). cbv beta zeta.
    rewrite (bindM_run _ _ _ _ _ _ R4), (bindM_run _ _ _ _ _ _ R5). cbv beta zeta.
    rewrite (bindM_run _ _ _ _ _ _ R6). cbv beta zeta.
    rewrite (bindM_run _ _ _ _ _ _ R7), (bindM_run _ _ _ _ _ _ R8).
    rewrite (bindM_run _ _ _ _ _ _ R9), (bindM_run _ _ _ _ _ _ R10).
    unfold lift, DataFrame_of_columns. cbn [forallb]. unfold same_length. cbn [snd].
    rewrite !length_map, L1, L2, L3, L4, L5, L6, L7, L8, L9, L10, Hrange, Hdate.
    reflexivity. }
  assert (F0 : files w0 = files w) by reflexivity.
  assert (T0 : trace w0 = trace w) by reflexivity.
  split; [congruence |]. split; [congruence |].
  repeat split; assumption.
Qed.

Lemma str_column_cell df c xs (choices : list string) i :
  column c (cols df) = Some (map VStr xs) ->
  List.length xs = 1000%nat -> Forall (fun y => In y choices) xs ->
  (i < 1000)%nat ->
  exists s, cell df c i = Some (VStr s) /\ In s choices.
Proof.
  intros Hc Hl Hin Hi. unfold cell. rewrite Hc, nth_error_map.
  destruct (nth_error xs i) as [x |] eqn:E.
  - exists x. split; [reflexivity |].
    exact (proj1 (Forall_forall _ xs) Hin x (nth_error_In _ _ E)).
  - apply nth_error_None in E. lia.
Qed.

(** X12.  In the table of [create_test_data], in every row, each drawn
    label is one of the labels it is drawn from: [source] one of source_A,
    source_B, source_C; [condition] one of condition_1, condition_2,
    condition_3; [sex] M or F; [patient_type] type_A or type_B; [INN] one of
    INN_1, INN_2, INN_3; [prediction] one of positive, negative, neutral;
    and [predicted_label] is 0, 1 or 2. *)
Theorem test_data_labels (w : world rng_state) :
  exists df,
    fst (test_data_frame seed_state bounded w) = Ok df
    /\ forall i, (i < 1000)%nat ->
         (exists s, cell df "source" i = Some (VStr s)
                    /\ In s ["source_A"; "source_B"; "source_C"])
         /\ (exists s, cell df "condition" i = Some (VStr s)
                       /\ In s ["condition_1"; "condition_2"; "condition_3"])
         /\ (exists s, cell df "sex" i = Some (VStr s) /\ In s ["M"; "F"])
         /\ (exists s, cell df "patient_type" i = Some (VStr s)
                       /\ In s ["type_A"; "type_B"])
         /\ (exists s, cell df "INN" i = Some (VStr s)
                       /\ In s ["INN_1"; "INN_2"; "INN_3"])
         /\ (exists s, cell df "prediction" i = Some (VStr s)
                       /\ In s ["positive"; "negative"; "neutral"])
         /\ (exists x, cell df "predicted_label" i = Some (VInt x) /\ 0 <= x <= 2).
Proof.
  destruct (test_data_frame_contents w)
    as (source & rating & condition & sex & duration & age & ptype & inn
        & prediction & plabel & w' & Hrun & _ & _
        & [L1 B1] & [L3 B3] & [L4 B4] & [L7 B7] & [L8 B8] & [L9 B9] & [L10 B10]).
  match type of Hrun with _ = (Ok ?d, _) => set (df := d) in * end.
  exists df. split; [now rewrite Hrun |]. intros i Hi.
  split; [exact (str_column_cell df "source" source _ i eq_refl L1 B1 Hi) |].
  split; [exact (str_column_cell df "condition" condition _ i eq_refl L3 B3 Hi) |].
  split; [exact (str_column_cell df "sex" sex _ i eq_refl L4 B4 Hi) |].
  split; [exact (str_column_cell df "patient_type" ptype _ i eq_refl L7 B7 Hi) |].
  split; [exact (str_column_cell df "INN" inn _ i eq_refl L8 B8 Hi) |].
  split; [exact (str_column_cell df "prediction" prediction _ i eq_refl L9 B9 Hi) |].
  destruct (int_column_cell (fun x => 0 <= x < 3) df "predicted_label" plabel i
              eq_refl B10) as (x & Hx & Px); [lia |].
  exists x. split; [exact Hx | lia].
Qed.

(** X13.  The columns that are not drawn are given by the row position:
    in row [i] (from 0), [product], [comment] and [username] are
    [product_i], [comment_i] and [user_i], and [date] is the day [i] days
    after 2023-01-01. *)
Theorem test_data_index_columns (w : world rng_state) :
  exists df,
    fst (test_data_frame seed_state bounded w) = Ok df
    /\ forall i, 0 <= i < 1000 ->
         cell df "product" (Z.to_nat i) = Some (VStr ("product_" ++ str_int i))
         /\ cell df "comment" (Z.to_nat i) = Some (VStr ("comment_" ++ str_int i))
         /\ cell df "username" (Z.to_nat i) = Some (VStr ("user_" ++ str_int i))
         /\ cell df "date" (Z.to_nat i) = Some (VDate (mk_date (738521 + i))).
Proof.
  destruct (test_data_frame_contents w)
    as (source & rating & condition & sex & duration & age & ptype & inn
        & prediction & plabel & w' & Hrun & _).
  eexists. split; [now rewrite Hrun |]. intros i Hi.
  assert (Hnth : nth_error (range 0 n_rows) (Z.to_nat i) = Some i).
  { rewrite range_nth by (unfold n_rows; lia). f_equal. lia. }
  unfold cell. cbn [cols column String.eqb Ascii.eqb Bool.eqb].
  rewrite !nth_error_map, Hnth. cbn [option_map].
  repeat split.
  rewrite firstn_all2 by (unfold date_range; rewrite length_map, range_length; lia).
  unfold date_range. rewrite nth_error_map, Hnth. reflexivity.
Qed.

End NumpyExtras.

Section NumpyScript.
Variable rng_state : Type.
Variable seed_state : Z -> rng_state.
Variable bounded : Z -> rng_state -> Z * rng_state.
Variable encode : format -> DataFrame -> result string.

(** What follows a statement leaves the generator alone. *)
Lemma globals_bind {A B} (m : M rng_state A) (k : A -> M rng_state B) w :
  (forall a w', globals (snd (k a w')) = globals w') ->
  globals (snd (bindM m k w)) = globals (snd (m w)).
Proof.
  intros Hk. unfold bindM. destruct (m w) as [[a | e] w1]; [apply Hk | reflexivity].
Qed.

Lemma globals_for_eachM {A} (xs : list A) (body : A -> M rng_state unit) :
  (forall x w, globals (snd (body x w)) = globals w) ->
  forall w, globals (snd (for_eachM xs body w)) = globals w.
Proof.
  intros Hb. induction xs as [|x xs IH]; intros w; [reflexivity |].
  cbn [for_eachM]. rewrite globals_bind; [apply Hb | intros _; apply IH].
Qed.

Lemma globals_mkdir parents exist_ok p (w : world rng_state) :
  globals (snd (Path_mkdir parents exist_ok p w)) = globals w.
Proof.
  unfold Path_mkdir. cbn [files log].
  now destruct (mkdir parents exist_ok (files w) p).
Qed.

Lemma globals_export f df p (w : world rng_state) :
  globals (snd (export encode f df p w)) = globals w.
Proof.
  unfold export. cbn [files log].
  now destruct (export_result encode f df p (files w)).
Qed.

Lemma test_data_frame_state (w1 w2 : world rng_state) :
  globals (snd (test_data_frame seed_state bounded w1))
  = globals (snd (test_data_frame seed_state bounded w2)).
Proof.
  unfold test_data_frame.
  rewrite (bindM_run _ (np_random_seed seed_state 42) _ w1 tt _ eq_refl).
  rewrite (bindM_run _ (np_random_seed seed_state 42) _ w2 tt _ eq_refl).
  cbv beta zeta.
  match goal with
  | |- globals (snd (?m _)) = globals (snd (?m _)) => assert (Hm : rng_only m)
  end.
  { repeat (apply rng_only_bind;
            [first [apply rng_only_choice | apply rng_only_randint] | intros ?]).
    apply rng_only_lift. }
  now apply Hm.
Qed.

(** X17.  [create_test_data] leaves numpy's global generator in a state
    that does not depend on the state it found: the generator is seeded
    anew on line 8 and only the draws of the columns follow, whether the
    call returns or raises. *)
Theorem create_test_data_reseeds (w1 w2 : world rng_state) :
  globals (snd (create_test_data seed_state bounded encode w1))
  = globals (snd (create_test_data seed_state bounded encode w2)).
Proof.
  assert (H : forall w, globals (snd (create_test_data seed_state bounded encode w))
                        = globals (snd (test_data_frame seed_state bounded w))).
  { intros w. unfold create_test_data. apply globals_bind. intros df w'.
    rewrite globals_bind; [apply globals_mkdir |]. intros _ w3.
    rewrite globals_bind; [apply globals_export |]. intros _ w4.
    rewrite globals_bind; [reflexivity |]. intros _ w5.
    rewrite globals_bind; [reflexivity |]. intros _ w6.
    rewrite globals_bind; [reflexivity |]. intros _ w7.
    rewrite globals_bind; [| reflexivity].
    apply globals_for_eachM. now intros [col vs] w8. }
  rewrite !H. apply test_data_frame_state.
Qed.

Hypothesis bounded_range :
  forall rng st, 0 <= rng -> 0 <= fst (bounded rng st) <= rng.




(** X15.  [create_test_data] has no handler around its export: when the
    Parquet encoder raises, the exception ends the call with exit status 1,
    after the table has been built and the directory [test_data] made, and
    before anything is printed. *)
Theorem create_test_data_export_failure (w : world rng_state) :
  creatable (files w) output_dir = true ->
  exists df,
    fst (test_data_frame seed_state bounded w) = Ok df
    /\ forall e, encode Parquet df = Raise e ->
         exists w',
           create_test_data seed_state bounded encode w = (Raise e, w')
           /\ exit_status (fst (create_test_data seed_state bounded encode w)) = 1
           /\ trace w'
              = (trace w ++ [Mkdir ["test_data"];
                             Export Parquet ["test_data"; "test_reviews.parquet"] df])%list
           /\ is_dir (files w') ["test_data"] = true.
Proof.
  intros Hc.
  destruct (test_data_frame_run _ seed_state bounded bounded_range w)
    as (df & w1 & Hrun & F1 & T1 & _).
  exists df. split; [now rewrite Hrun |]. intros e He.
  rewrite <- F1 in Hc.
  destruct (mkdir_output_dir _ Hc) as (es1 & Hm & Hd).
  assert (Hall : create_test_data seed_state bounded encode w
                 = (Raise e,
                    log (Export Parquet output_file df)
                      (set_files es1 (log (Mkdir output_dir) w1)))).
  { unfold create_test_data. rewrite (bindM_run _ _ _ _ _ _ Hrun).
    cbv beta zeta. fold output_dir.
    change (joinpath output_dir "test_reviews.parquet") with output_file.
    unfold bindM at 1, Path_mkdir. cbn [files log]. rewrite Hm.
    unfold bindM at 1, export, export_result. cbn [files log set_files trace].
    now rewrite He. }
  eexists. split; [exact Hall |]. split; [now rewrite Hall |].
  cbn [trace files log set_files globals]. split; [| exact Hd].
  now rewrite T1, <- app_assoc.
Qed.

(** X16.  When [test_data] is a regular file, [create_test_data] raises the
    [FileExistsError] of [mkdir] ([exist_ok] only lets an existing directory
    pass): the table has been built, but no export is
    attempted, nothing is printed and the tree is left as it was. *)
Theorem create_test_data_blocked_by_file (w : world rng_state) content :
  lookup (files w) ["test_data"] = Some (File content) ->
  exists w',
    create_test_data seed_state bounded encode w
    = (Raise (FileExistsError "test_data"), w')
    /\ exit_status (fst (create_test_data seed_state bounded encode w)) = 1
    /\ trace w' = (trace w ++ [Mkdir ["test_data"]])%list
    /\ files w' = files w.
Proof.
  intros Hl.
  destruct (test_data_frame_run _ seed_state bounded bounded_range w)
    as (df & w1 & Hrun & F1 & T1 & _).
  assert (Hm : mkdir false true (files w1) output_dir
               = Raise (FileExistsError "test_data")).
  { rewrite F1. cbn in Hl |- *.
    destruct (assoc "test_data" (files w)) as [[c | sub] |]; [reflexivity | discriminate..]. }
  assert (Hall : create_test_data seed_state bounded encode w
                 = (Raise (FileExistsError "test_data"), log (Mkdir output_dir) w1)).
  { unfold create_test_data. rewrite (bindM_run _ _ _ _ _ _ Hrun).
    cbv beta zeta. fold output_dir.
    unfold bindM at 1, Path_mkdir. cbn [files log]. now rewrite Hm. }
  eexists. split; [exact Hall |]. split; [now rewrite Hall |].
  cbn [trace files log]. split; [now rewrite T1 | exact F1].
Qed.

End NumpyScript.

(** ** The footprint of create_test_data.py *)

Section NumpyFrames.
Variable rng_state : Type.
Variable seed_state : Z -> rng_state.
Variable bounded : Z -> rng_state -> Z * rng_state.
Variable encode : format -> DataFrame -> result string.

Lemma randint_files low high size (w : world rng_state) :
  files (snd (randint bounded low high size w)) = files w
  /\ trace (snd (randint bounded low high size w)) = trace w.
Proof.
  unfold randint, raise. destruct (high <=? low); [now split |].
  destruct (size <? 0); [now split |].
  now destruct (draws bounded (high - low - 1) (Z.to_nat size) (globals w)).
Qed.

Lemma choice_files {A} (a : list A) size (w : world rng_state) :
  files (snd (choice bounded a size w)) = files w
  /\ trace (snd (choice bounded a size w)) = trace w.
Proof.
  unfold choice. destruct a as [|a0 a']; [now split |].
  unfold bindM, lift.
  pose proof (randint_files 0 (Z.of_nat (List.length (a0 :: a'))) size w) as H.
  destruct (randint bounded 0 (Z.of_nat (List.length (a0 :: a'))) size w)
    as [[idx | e] w1]; exact H.
Qed.

Lemma quiet_bind {A B} (m : M rng_state A) (k : A -> M rng_state B) :
  quiet m -> (forall a, quiet (k a)) -> quiet (bindM m k).
Proof.
  intros Hm Hk w. specialize (Hm w). unfold bindM.
  destruct (m w) as [[a | e] w1]; cbn [snd] in *; [| exact Hm].
  destruct Hm as [F1 T1], (Hk a w1) as [F T]. split; congruence.
Qed.

Lemma quiet_test_data_frame : quiet (test_data_frame seed_state bounded).
Proof.
  unfold test_data_frame.
  apply quiet_bind; [intros w; now split | intros _].
  repeat (apply quiet_bind;
          [first [intros w; apply choice_files | intros w; apply randint_files]
          | intros ?]).
  intros w. now split.
Qed.

Lemma frames_create_test_data :
  frames [output_file] (ancestors output_dir)
         (create_test_data seed_state bounded encode).
Proof.
  unfold create_test_data. apply frames_bind.
  { apply frames_still. intros w. apply quiet_test_data_frame. }
  intros df. apply frames_bind.
  { eapply frames_incl; [| | apply frames_mkdir]; [intros q [] | apply incl_refl]. }
  intros _. apply frames_bind.
  { eapply frames_incl; [| | apply frames_export]; [apply incl_refl | intros q []]. }
  intros _.
  repeat (apply frames_bind; [now apply frames_still | intros _]).
  apply frames_bind; [| intros _; now apply frames_still].
  apply frames_for_eachM. intros [col vs] _. now apply frames_still.
Qed.

(** X18.  Whatever the generator, the encoder and the tree, and whether it
    returns or raises, [create_test_data] changes the tree within its
    footprint: a regular file other than [test_data/test_reviews.parquet] is
    there afterwards exactly when it was there before, with the same content;
    no directory is removed; and the one directory that may be new is
    [test_data]. *)
Theorem create_test_data_footprint (w : world rng_state) :
  keeps [["test_data"; "test_reviews.parquet"]] [[]; ["test_data"]]
        (files w) (files (snd (create_test_data seed_state bounded encode w))).
Proof. apply frames_create_test_data. Qed.

End NumpyFrames.

(** ** Instances *)

(** The instance of X1 on 2026-11-03: five rows are returned, 739923 are
    not. *)
Lemma generate_data_returns_iff_witness :
  (exists df, generate_data (mk_date 739923) "sample" 5 = Ok df)
  /\ generate_data (mk_date 739923) "sample" 739923
     = Raise (OverflowError "date value out of range").
Proof.
  destruct (generate_data_returns_iff (mk_date 739923) "sample" 5) as [[_ H5] _];
    [valid_day |].
  destruct (generate_data_returns_iff (mk_date 739923) "sample" 739923) as [_ Hbig];
    [valid_day |].
  split; [apply H5; cbn; lia | apply Hbig; cbn; lia].
Defined.

(** The instance of X2 for the third of five rows: [3.3]. *)
Lemma generate_data_value_decimal_witness :
  exists df,
    generate_data (mk_date 739923) "sample" 5 = Ok df
    /\ cell df "value" 2 = Some (VFloat (float_lit 33 10)).
Proof.
  destruct (generate_data_value_decimal (mk_date 739923) "sample" 5 3)
    as (df & Hdf & Hcell); [valid_day | cbn; lia | lia | lia |].
  exists df. split; [exact Hdf | exact Hcell].
Defined.

(** The instance of X3 for the two datasets of the script, five and eight
    rows. *)
Lemma generate_data_rows_by_index_witness :
  exists df1 df2,
    generate_data (mk_date 739923) "sample" 5 = Ok df1
    /\ generate_data (mk_date 739923) "sample2" 8 = Ok df2
    /\ column "id" (cols df1) = option_map (firstn 5) (column "id" (cols df2)).
Proof.
  destruct (generate_data_rows_by_index (mk_date 739923) "sample" "sample2" 5 8)
    as (df1 & df2 & E1 & E2 & H); [valid_day | lia | cbn; lia |].
  exists df1, df2. split; [exact E1 |]. split; [exact E2 |].
  apply (H "id"). left. discriminate.
Defined.

(** The instance of X4 for the stem [out/sample] where [out] is a regular
    file. *)
Lemma write_files_blocked_by_file_witness :
  write_files encode_without_excel (mk_frame 0 []) ["out"; "sample"]
    (mk_world tt [("out", File "x")] [])
  = (Raise (FileExistsError "out"),
     mk_world tt [("out", File "x")] [Mkdir ["out"]]).
Proof.
  exact (write_files_blocked_by_file encode_without_excel (mk_frame 0 [])
           ["out"; "sample"] (mk_world tt [("out", File "x")] []) eq_refl).
Defined.

(** The instance of X5 for [Path('.')] in an empty tree. *)
Lemma write_files_empty_name_witness :
  exists w',
    write_files encode_without_excel (mk_frame 0 []) [] (mk_world tt [] [])
    = (Raise (ValueError "PosixPath('.') has an empty name"), w')
    /\ trace w' = [Mkdir []].
Proof.
  destruct (write_files_empty_name encode_without_excel (mk_frame 0 []) []
              (mk_world tt [] []) eq_refl eq_refl) as (w' & Hrun & Ht & _).
  exists w'. split; [exact Hrun | exact Ht].
Defined.


(** The instance of X8 for the stem [out/sample] and its CSV target. *)
Lemma write_files_on_own_target_witness :
  write_files encode_without_excel (mk_frame 0 []) ["out"; "sample.csv"]
    (mk_world tt [] [])
  = write_files encode_without_excel (mk_frame 0 []) ["out"; "sample"]
      (mk_world tt [] [])
  /\ with_suffix ["out"; "sample.csv"] ".json" = Ok ["out"; "sample.json"].
Proof.
  destruct (write_files_on_own_target encode_without_excel (mk_frame 0 [])
              ["out"; "sample"] CSV (mk_world tt [] [])) as [Hsame Hsfx];
    [vm_compute; discriminate |].
  split; [exact Hsame | exact (Hsfx JSON)].
Defined.

(** The instance of X9 on 2026-11-03 with [--sample-rows 739923]. *)
Lemma main_fails_before_writing_witness :
  main encode_without_excel (mk_args ["out"] 739923 8)
    (mk_world (mk_date 739923) [] [])
  = (Raise (OverflowError "date value out of range"),
     mk_world (mk_date 739923) [] [])
  /\ exit_status
       (fst (main encode_without_excel (mk_args ["out"] 739923 8)
               (mk_world (mk_date 739923) [] [])))
     = 1.
Proof.
  apply (main_fails_before_writing encode_without_excel (mk_args ["out"] 739923 8)
           (mk_world (mk_date 739923) [] [])); valid_day.
Defined.

(** The instance of X10 on 2026-11-03 with [--sample2-rows 739923]. *)
Lemma main_fails_after_first_dataset_witness :
  exists w',
    main encode_without_excel (mk_args ["out"] 5 739923)
      (mk_world (mk_date 739923) [] [])
    = (Raise (OverflowError "date value out of range"), w')
    /\ lookup (files w') ["out"; "sample.csv"] = Some (File "CSV")
    /\ lookup (files w') ["out"; "sample2.csv"] = None.
Proof.
  destruct (main_fails_after_first_dataset encode_without_excel
              (mk_args ["out"] 5 739923) (mk_world (mk_date 739923) [] []))
    as (df1 & w' & evs & _ & Hrun & _ & _ & _ & Hok & Hkeep);
    [valid_day | valid_day | valid_day | reflexivity |].
  exists w'. split; [exact Hrun |]. split.
  - apply (Hok CSV "CSV" eq_refl eq_refl).
  - apply (Hkeep CSV).
Defined.

(** The instance of X12 for the generator [lcg_bounded], first row. *)
Lemma test_data_labels_witness :
  exists df,
    fst (test_data_frame lcg_seed lcg_bounded (mk_world 0 [] [])) = Ok df
    /\ (exists s, cell df "sex" 0 = Some (VStr s) /\ In s ["M"; "F"])
    /\ (exists x, cell df "predicted_label" 0 = Some (VInt x) /\ 0 <= x <= 2).
Proof.
  destruct (test_data_labels Z lcg_seed lcg_bounded lcg_bounded_range
              (mk_world 0 [] [])) as (df & Hdf & H).
  exists df. split; [exact Hdf |].
  destruct (H 0%nat) as (_ & _ & Hsex & _ & _ & _ & Hlabel); [lia |].
  split; [exact Hsex | exact Hlabel].
Defined.

(** The instance of X13 for the generator [lcg_bounded], row 31:
    2023-02-01. *)
Lemma test_data_index_columns_witness :
  exists df,
    fst (test_data_frame lcg_seed lcg_bounded (mk_world 0 [] [])) = Ok df
    /\ cell df "product" 31 = Some (VStr "product_31")
    /\ cell df "date" 31 = Some (VDate (mk_date 738552)).
Proof.
  destruct (test_data_index_columns Z lcg_seed lcg_bounded lcg_bounded_range
              (mk_world 0 [] [])) as (df & Hdf & H).
  exists df. split; [exact Hdf |].
  destruct (H 31) as (Hp & _ & _ & Hd); [lia |].
  split; [exact Hp | exact Hd].
Defined.


(** The instance of X15 for the generator [lcg_bounded] and an encoder
    without a Parquet engine. *)
Lemma create_test_data_export_failure_witness :
  exists w',
    create_test_data lcg_seed lcg_bounded
      (fun _ _ => Raise (mk_exn "ImportError" "no Parquet engine"))
      (mk_world 0 [] [])
    = (Raise (mk_exn "ImportError" "no Parquet engine"), w')
    /\ is_dir (files w') ["test_data"] = true.
Proof.
  destruct (create_test_data_export_failure Z lcg_seed lcg_bounded
              (fun _ _ => Raise (mk_exn "ImportError" "no Parquet engine"))
              lcg_bounded_range (mk_world 0 [] []) eq_refl)
    as (df & _ & H).
  destruct (H _ eq_refl) as (w' & Hrun & _ & _ & Hd).
  exists w'. split; [exact Hrun | exact Hd].
Defined.

(** The instance of X16 for the generator [lcg_bounded], where [test_data]
    is a regular file. *)
Lemma create_test_data_blocked_by_file_witness :
  exists w',
    create_test_data lcg_seed lcg_bounded encode_without_excel
      (mk_world 0 [("test_data", File "")] [])
    = (Raise (FileExistsError "test_data"), w')
    /\ files w' = [("test_data", File "")].
Proof.
  destruct (create_test_data_blocked_by_file Z lcg_seed lcg_bounded
              encode_without_excel lcg_bounded_range
              (mk_world 0 [("test_data", File "")] []) "" eq_refl)
    as (w' & Hrun & _ & _ & Hf).
  exists w'. split; [exact Hrun | exact Hf].
Defined.
